(** * A retrieval-augmented question-answering application

    Shallow embedding of [document_processor.py], [vector_store.py],
    [rag_pipeline.py] and the pipeline bootstrap of [app.py], followed by
    the properties of these functions.

    Python values are modelled as follows.
    - [str] is a sequence of characters: [len] is [length], [s[:n]] is
      [firstn n s], [a + b] is [a ++ b].
    - A call that may raise returns a [result]; [try ... except Exception]
      is [try_except].  Exceptions are those deriving from [Exception],
      which is what library code raises and what the handlers catch.
    - Objects mutated in place (the store, the disk, the pipeline and its
      memory) are threaded explicitly: a method is a function from the
      state before the call to an outcome and the state after it.
    - The third-party services (embedding providers, the Chroma index, the
      language model, the conversational chain) are not part of the
      program; they are collected in a record of operations and every
      function of the program is parameterised by it.
    - [print] calls write to the console only and are omitted. *)

From Stdlib Require Import String Ascii List Arith Bool Lia.
Import ListNotations.

Set Implicit Arguments.

(* ================================================================= *)
(** ** Python strings *)

Definition str := list ascii.

(** A string literal. *)
Definition py (s : string) : str := list_ascii_of_string s.

Arguments py s%_string_scope.

Definition str_eqb (a b : str) : bool :=
  if list_eq_dec ascii_dec a b then true else false.

(** [s.startswith(p)] *)
Fixpoint startswith (p s : str) : bool :=
  match p, s with
  | [], _ => true
  | _ :: _, [] => false
  | a :: p', b :: s' => if ascii_dec a b then startswith p' s' else false
  end.

(** [needle in hay] *)
Fixpoint contains (needle hay : str) : bool :=
  match hay with
  | [] => startswith needle []
  | _ :: hay' => startswith needle hay || contains needle hay'
  end.

(** [c.lower()] on one ASCII character. *)
Definition lower_char (c : ascii) : ascii :=
  let n := nat_of_ascii c in
  if (65 <=? n) && (n <=? 90) then ascii_of_nat (n + 32) else c.

(** [s.lower()] *)
Definition lower (s : str) : str := map lower_char s.

(** [sum(len(x) for x in l)] *)
Definition total_len (l : list str) : nat := length (concat l).

(** [enumerate(l)], counting from [i]. *)
Fixpoint enumerate_from (A : Type) (i : nat) (l : list A) : list (nat * A) :=
  match l with
  | [] => []
  | x :: l' => (i, x) :: enumerate_from (S i) l'
  end.

Definition enumerate (A : Type) (l : list A) : list (nat * A) :=
  enumerate_from 0 l.

(* ================================================================= *)
(** ** Exceptions *)

(** An exception deriving from [Exception]; [what e] is [str(e)]. *)
Record PyException := Exception { what : str }.

Inductive result (A : Type) : Type :=
| Ok (a : A)
| Raise (e : PyException).

Arguments Ok {A} a.
Arguments Raise {A} e.

Definition bind (A B : Type) (m : result A) (k : A -> result B) : result B :=
  match m with
  | Ok a => k a
  | Raise e => Raise e
  end.

Notation "x <- m ;; k" := (bind m (fun x => k))
  (at level 61, m at next level, right associativity).

(** [try: body  except Exception as e: handler(e)] *)
Definition try_except (A : Type) (body : result A)
    (handler : PyException -> result A) : result A :=
  match body with
  | Ok a => Ok a
  | Raise e => handler e
  end.

Definition raises (A : Type) (m : result A) : bool :=
  match m with
  | Ok _ => false
  | Raise _ => true
  end.

(* ================================================================= *)
(** ** [langchain.schema.Document] *)

(** The metadata dictionary built by the loaders: keys ["source"],
    ["type"], ["chunk"] and ["total_chunks"]. *)
Record Metadata := mkMetadata {
  source : str;
  type : str;
  chunk : nat;
  total_chunks : nat
}.

Record Document := mkDocument {
  page_content : str;
  metadata : Metadata
}.

(* ================================================================= *)
(** ** [pathlib.Path(p).suffix] *)

Module Path.

Definition slash : ascii := "/"%char.
Definition dot : ascii := "."%char.

(** The components of a path: the pieces between slashes, without the
    empty ones and without ["."]. *)
Fixpoint components (cur : str) (p : str) : list str :=
  match p with
  | [] => [rev cur]
  | c :: p' =>
      if ascii_dec c slash then rev cur :: components [] p'
      else components (c :: cur) p'
  end.

Definition parts (p : str) : list str :=
  filter (fun x => negb (str_eqb x []) && negb (str_eqb x [dot]))
         (components [] p).

(** [Path(p).name]: the last component, or the empty string. *)
Definition name (p : str) : str := last (parts p) [].

(** [s.rfind(".")] as the number of characters before the last dot. *)
Fixpoint rfind_dot (s : str) : option nat :=
  match s with
  | [] => None
  | c :: s' =>
      match rfind_dot s' with
      | Some i => Some (S i)
      | None => if ascii_dec c dot then Some 0 else None
      end
  end.

(** [Path(p).suffix]: the name from its last dot on when that dot is
    neither the first nor the last character of the name. *)
Definition suffix (p : str) : str :=
  let n := name p in
  match rfind_dot n with
  | Some i => if (0 <? i) && (i <? length n - 1) then skipn i n else []
  | None => []
  end.

End Path.

(* ================================================================= *)
(** ** The chunker *)

(** [langchain.text_splitter.RecursiveCharacterTextSplitter] is a
    third-party class; [document_processor.py] only configures it. *)
Module TextSplitter.

Definition newline : ascii := ascii_of_nat 10.
Definition space : ascii := " "%char.

(** The separators passed by [DocumentProcessor.__init__]:
    ["\n\n"], ["\n"], [" "], [""]. *)
Definition separators : list str :=
  [[newline; newline]; [newline]; [space]; []].

(** With [skip] characters of a separator occurrence still to read,
    [cut_at] scans [s] and closes a piece after the last character of
    every occurrence of [sep]; [cur] is the current piece, reversed. *)
Fixpoint cut_at (sep : str) (skip : nat) (cur : str) (s : str) : list str :=
  match s with
  | [] => [rev cur]
  | c :: s' =>
      let pending :=
        match skip with
        | 0 => if startswith sep s then length sep else 0
        | _ => skip
        end in
      match pending with
      | 1 => rev (c :: cur) :: cut_at sep 0 [] s'
      | _ => cut_at sep (pred pending) (c :: cur) s'
      end
  end.

Definition nonempty (x : str) : bool := negb (str_eqb x []).

(** The pieces of [text] at one level of the hierarchy: cut after
    every [sep], or into single characters for the empty separator. *)
Definition split_on (sep : str) (text : str) : list str :=
  match sep with
  | [] => map (fun c => [c]) text
  | _ => filter nonempty (cut_at sep 0 [] text)
  end.

(** Hierarchical splitting: cut at the first separator; a piece that is
    still longer than [chunk_size] is cut again with the separators of
    lower priority. *)
Fixpoint pieces (chunk_size : nat) (seps : list str) (text : str)
    : list str :=
  match seps with
  | [] => [text]
  | sep :: seps' =>
      flat_map
        (fun p => if length p <=? chunk_size then [p]
                  else pieces chunk_size seps' p)
        (split_on sep text)
  end.

(** The pieces carried over into the next chunk: the longest tail of
    the window that is at most [overlap] characters long and leaves
    room for a piece of [plen] characters. *)
Fixpoint carry_over (chunk_size overlap plen : nat) (window : list str)
    : list str :=
  match window with
  | [] => []
  | _ :: window' =>
      if (total_len window <=? overlap)
         && (total_len window + plen <=? chunk_size)
      then window
      else carry_over chunk_size overlap plen window'
  end.

Definition emit (window : list str) : list str :=
  match window with
  | [] => []
  | _ => [concat window]
  end.

(** Greedy merging of consecutive pieces into chunks of at most
    [chunk_size] characters; a chunk starts with the overlap carried
    over from the chunk before it. *)
Fixpoint merge (chunk_size overlap : nat) (window : list str)
    (ps : list str) : list str :=
  match ps with
  | [] => emit window
  | p :: ps' =>
      match window with
      | [] => merge chunk_size overlap [p] ps'
      | _ =>
          if total_len window + length p <=? chunk_size
          then merge chunk_size overlap (window ++ [p]) ps'
          else concat window
               :: merge chunk_size overlap
                    (carry_over chunk_size overlap (length p) window ++ [p])
                    ps'
      end
  end.

(** Modelled from the spec: [split_text] of the third-party
    [RecursiveCharacterTextSplitter], which is not part of the sources.
    The text is split hierarchically, preferring paragraph breaks, then
    line breaks, then spaces, then raw character boundaries; chunks hold
    at most [chunk_size] characters and consecutive chunks overlap by up
    to [chunk_overlap] characters. *)
Definition split_text (chunk_size chunk_overlap : nat) (text : str)
    : list str :=
  merge chunk_size chunk_overlap [] (pieces chunk_size separators text).

End TextSplitter.

(* ================================================================= *)
(** ** [document_processor.py] *)

Module DocumentProcessor.

(** What the loaders read: [open(path).read()] for text files and the
    extracted text of every page of [pypdf.PdfReader(file)]; both raise
    on a missing or unreadable file. *)
Record Files := mkFiles {
  read : str -> result str;
  pdf_pages : str -> result (list str);
  glob : str -> list (str * bool)
}.

(** The processor object; its only attribute is the splitter. *)
Record t := mk { text_splitter : str -> result (list str) }.

Definition __init__ (chunk_size chunk_overlap : nat) : t :=
  {| text_splitter := fun text =>
       Ok (TextSplitter.split_text chunk_size chunk_overlap text) |}.

(** The loop [for i, chunk in enumerate(chunks): documents.append(...)],
    shared by the three loaders. *)
Definition documents_of (file_path type : str) (chunks : list str)
    : list Document :=
  map (fun ic =>
         mkDocument (snd ic)
           (mkMetadata file_path type (fst ic) (length chunks)))
      (enumerate chunks).

(** Every document of [docs] carries the file it comes from, its
    format, its position in [docs] and the length of [docs]. *)
Definition traceable (file_path ty : str) (docs : list Document) : Prop :=
  forall i d,
    nth_error docs i = Some d ->
    source (metadata d) = file_path
    /\ type (metadata d) = ty
    /\ chunk (metadata d) = i
    /\ total_chunks (metadata d) = length docs.

Definition load_pdf (self : t) (fs : Files) (file_path : str)
    : result (list Document) :=
  try_except
    (pages <- pdf_pages fs file_path ;;
     let text :=
       fold_left (fun text page => text ++ page ++ [TextSplitter.newline])
                 pages [] in
     chunks <- text_splitter self text ;;
     Ok (documents_of file_path (py "pdf") chunks))
    (fun _ => Ok []).

Definition load_txt (self : t) (fs : Files) (file_path : str)
    : result (list Document) :=
  try_except
    (text <- read fs file_path ;;
     chunks <- text_splitter self text ;;
     Ok (documents_of file_path (py "txt") chunks))
    (fun _ => Ok []).

Definition load_md (self : t) (fs : Files) (file_path : str)
    : result (list Document) :=
  try_except
    (text <- read fs file_path ;;
     chunks <- text_splitter self text ;;
     Ok (documents_of file_path (py "markdown") chunks))
    (fun _ => Ok []).

Definition file_extension (file_path : str) : str :=
  lower (Path.suffix file_path).

Definition process_file (self : t) (fs : Files) (file_path : str)
    : result (list Document) :=
  let file_extension := file_extension file_path in
  if str_eqb file_extension (py ".pdf") then load_pdf self fs file_path
  else if str_eqb file_extension (py ".txt") then load_txt self fs file_path
  else if str_eqb file_extension (py ".md") then load_md self fs file_path
  else Ok [].

Definition supported (file_path : str) : bool :=
  existsb (str_eqb (file_extension file_path))
          [py ".pdf"; py ".txt"; py ".md"].

(** [glob fs d] lists the entries of directory [d], each with whether
    it is a regular file. *)
Definition process_directory (self : t) (fs : Files) (directory_path : str)
    : result (list Document) :=
  fold_left
    (fun acc entry =>
       documents <- acc ;;
       if snd entry && supported (fst entry)
       then more <- process_file self fs (fst entry) ;;
            Ok (documents ++ more)
       else Ok documents)
    (glob fs directory_path) (Ok []).

End DocumentProcessor.

(* ================================================================= *)
(** ** The disk *)

(** [os.path.exists] and [shutil.rmtree] over the set of paths that
    exist. *)
Module Disk.

Definition t := list str.

Definition exists_ (d : t) (p : str) : bool := existsb (str_eqb p) d.

(** [q] is [p] or lies below it. *)
Definition below (p q : str) : bool :=
  str_eqb q p || startswith (p ++ [Path.slash]) q.

(** The disk once [p] and everything below it are gone. *)
Definition without (d : t) (p : str) : t :=
  filter (fun q => negb (below p q)) d.

(** [shutil.rmtree(p)].  The call removes the tree at [p], or it raises
    ([NotADirectoryError] when [p] is a regular file, [PermissionError],
    ...) and leaves a disk behind: [failure] is that exception with the
    disk it leaves, or [None] when the removal goes through.  The
    outcome comes with the disk after the call. *)
Definition rmtree (failure : option (PyException * t)) (d : t) (p : str)
    : result unit * t :=
  match failure with
  | Some (e, leftover) => (Raise e, leftover)
  | None => (Ok tt, without d p)
  end.

End Disk.

(* ================================================================= *)
(** ** Third-party services *)

Inductive Embeddings :=
| Ollama (model : str)
| SentenceTransformer (model_name : str).

(** A handle on a Chroma index. *)
Record Chroma := mkChroma {
  collection : list Document;
  embedding_function : Embeddings;
  directory : str
}.

(** [ChatOllama(model=..., temperature=0.7)] *)
Record LLM := mkLLM { llm_model : str }.

(** [ConversationalRetrievalChain]: the model, the retriever
    [index.as_retriever(search_kwargs={"k": k})]; the prompt is a
    constant of the program. *)
Record Chain := mkChain {
  chain_llm : LLM;
  retriever : Chroma;
  search_k : nat
}.

(** A message of [ConversationBufferMemory.chat_memory.messages]. *)
Record Message := mkMessage {
  message_type : str;
  message_content : str
}.

(** The dictionary returned by a chain call; a key may be missing. *)
Record ChainResult := mkChainResult {
  result_answer : option str;
  result_source_documents : option (list Document)
}.

(** Outcomes of the calls into the libraries the program orchestrates.
    A call that mutates the disk or the memory returns the new one.
    [rmtree_failure d p] tells whether [shutil.rmtree(p)] fails on the
    disk [d], with which exception and leaving which disk. *)
Record Services := mkServices {
  OllamaEmbeddings : str -> result Embeddings;
  SentenceTransformerEmbeddings : str -> result Embeddings;
  Chroma_from_documents :
    list Document -> Embeddings -> str -> Disk.t -> result (Chroma * Disk.t);
  Chroma_open : str -> Embeddings -> result Chroma;
  add_documents :
    Chroma -> list Document -> Disk.t -> result (Chroma * Disk.t);
  index_similarity_search : Chroma -> str -> nat -> result (list Document);
  collection_count : Chroma -> result nat;
  delete_collection : Chroma -> result unit;
  ChatOllama : str -> result LLM;
  ConversationalRetrievalChain_from_llm :
    LLM -> Chroma -> nat -> option (list Message) -> result Chain;
  call_chain :
    Chain -> option (list Message) -> str
    -> result ChainResult * option (list Message);
  rmtree_failure : Disk.t -> str -> option (PyException * Disk.t)
}.

(* ================================================================= *)
(** ** [vector_store.py] *)

Module VectorStore.

Record t := mk {
  persist_directory : str;
  vector_store : option Chroma;
  embeddings : Embeddings
}.

Definition set_vector_store (self : t) (v : option Chroma) : t :=
  {| persist_directory := persist_directory self;
     vector_store := v;
     embeddings := embeddings self |}.

(** The dictionary of [get_store_info]: ["status"], ["count"] and, in
    the error case, ["error"]. *)
Record Info := mkInfo {
  status : str;
  count : nat;
  error : option str
}.

Section Methods.

Variable S : Services.

Definition __init__ (persist_directory : str) : result t :=
  embeddings <-
    try_except
      (OllamaEmbeddings S (py "mistral"))
      (fun _ => SentenceTransformerEmbeddings S (py "all-MiniLM-L6-v2")) ;;
  Ok {| persist_directory := persist_directory;
        vector_store := None;
        embeddings := embeddings |}.

Definition create_vector_store (self : t) (disk : Disk.t)
    (documents : list Document) : result (t * Disk.t) :=
  match documents with
  | [] => Ok (self, disk)
  | _ =>
      match vector_store self with
      | None =>
          created <- Chroma_from_documents S documents (embeddings self)
                       (persist_directory self) disk ;;
          Ok (set_vector_store self (Some (fst created)), snd created)
      | Some index =>
          added <- add_documents S index documents disk ;;
          Ok (set_vector_store self (Some (fst added)), snd added)
      end
  end.

Definition load_existing_store (self : t) (disk : Disk.t)
    : result (bool * t) :=
  try_except
    (if Disk.exists_ disk (persist_directory self)
     then index <- Chroma_open S (persist_directory self)
                     (embeddings self) ;;
          Ok (true, set_vector_store self (Some index))
     else Ok (false, self))
    (fun _ => Ok (false, self)).

Definition similarity_search (self : t) (query : str) (k : nat)
    : result (list Document) :=
  match vector_store self with
  | None => Ok []
  | Some index => index_similarity_search S index query k
  end.

Definition get_store_info (self : t) : result Info :=
  match vector_store self with
  | None => Ok (mkInfo (py "not_initialized") 0 None)
  | Some index =>
      try_except
        (count <- collection_count S index ;;
         Ok (mkInfo (py "active") count None))
        (fun e => Ok (mkInfo (py "error") 0 (Some (what e))))
  end.

(** The outcome of the call, and the store and the disk after it: the
    removal of the directory is outside the [try], so what it raises
    leaves [clear_store] after the handle has been reset. *)
Definition clear_store (self : t) (disk : Disk.t)
    : result unit * (t * Disk.t) :=
  let self' :=
    match vector_store self with
    | Some index =>
        match delete_collection S index with
        | Ok _ => set_vector_store self None
        | Raise _ => self
        end
    | None => self
    end in
  if Disk.exists_ disk (persist_directory self')
  then
    let removed :=
      Disk.rmtree (rmtree_failure S disk (persist_directory self'))
                  disk (persist_directory self') in
    (fst removed, (self', snd removed))
  else (Ok tt, (self', disk)).

End Methods.

End VectorStore.

(* ================================================================= *)
(** ** [rag_pipeline.py] *)

Module RAGPipeline.

(** The pipeline object.  Its attribute [vector_store] is a reference
    to the store object shared with the application, so the methods
    that read it take the store's current state as an argument. *)
Record t := mk {
  model_name : str;
  llm : option LLM;
  memory : option (list Message);
  qa_chain : option Chain
}.

Definition set_memory (self : t) (m : option (list Message)) : t :=
  {| model_name := model_name self; llm := llm self;
     memory := m; qa_chain := qa_chain self |}.

(** An entry of ["source_documents"]. *)
Record Source := mkSource {
  content : str;
  source_metadata : Metadata
}.

(** The dictionary returned by [ask_question]. *)
Record Answer := mkAnswer {
  answer : str;
  source_documents : list Source;
  error : bool
}.

(** An entry of [get_chat_history]. *)
Record Turn := mkTurn {
  turn_type : str;
  turn_content : str
}.

(** The dictionary of [get_system_info]. *)
Record SystemInfo := mkSystemInfo {
  info_model_name : str;
  vector_store_status : str;
  document_count : nat;
  memory_initialized : bool;
  qa_chain_initialized : bool
}.

Definition is_some (A : Type) (o : option A) : bool :=
  match o with Some _ => true | None => false end.

(** The entry appended for one retrieved document. *)
Definition source_of (doc : Document) : Source :=
  {| content :=
       if 200 <? length (page_content doc)
       then firstn 200 (page_content doc) ++ py "..."
       else page_content doc;
     source_metadata := metadata doc |}.

(** [result["answer"]]; a missing key raises [KeyError('answer')]. *)
Definition getitem_answer (r : ChainResult) : result str :=
  match result_answer r with
  | Some a => Ok a
  | None => Raise (Exception (py "'answer'"))
  end.

(** [result.get("source_documents", [])] *)
Definition get_source_documents (r : ChainResult) : list Document :=
  match result_source_documents r with
  | Some docs => docs
  | None => []
  end.

Definition not_ready : Answer :=
  {| answer := py "System not ready. Please upload documents first.";
     source_documents := [];
     error := true |}.

Section Methods.

Variable S : Services.

Definition _initialize_llm (model_name : str) : result LLM :=
  try_except (ChatOllama S model_name) (fun e => Raise e).

Definition _setup_memory : option (list Message) := Some [].

Definition _setup_qa_chain (vector_store : VectorStore.t) (llm : LLM)
    (memory : option (list Message)) : result (option Chain) :=
  match VectorStore.vector_store vector_store with
  | None => Ok None
  | Some index =>
      try_except
        (chain <- ConversationalRetrievalChain_from_llm S llm index 4
                    memory ;;
         Ok (Some chain))
        (fun _ => Ok None)
  end.

Definition __init__ (vector_store : VectorStore.t) (model_name : str)
    : result t :=
  llm <- _initialize_llm model_name ;;
  let memory := _setup_memory in
  qa_chain <- _setup_qa_chain vector_store llm memory ;;
  Ok {| model_name := model_name; llm := Some llm;
        memory := memory; qa_chain := qa_chain |}.

(** The outcome of the call and the pipeline after it. *)
Definition ask_question (self : t) (question : str) : result Answer * t :=
  match qa_chain self with
  | None => (Ok not_ready, self)
  | Some chain =>
      let called := call_chain S chain (memory self) question in
      (try_except
         (result <- fst called ;;
          let sources := map source_of (get_source_documents result) in
          answer <- getitem_answer result ;;
          Ok {| answer := answer;
                source_documents := sources;
                error := false |})
         (fun e =>
            Ok {| answer := py "Error processing question: " ++ what e;
                  source_documents := [];
                  error := true |}),
       set_memory self (snd called))
  end.

Definition clear_memory (self : t) : result unit * t :=
  match memory self with
  | Some _ => (Ok tt, set_memory self (Some []))
  | None => (Ok tt, self)
  end.

Definition get_chat_history (self : t) : result (list Turn) :=
  match memory self with
  | None => Ok []
  | Some messages =>
      try_except
        (Ok (map (fun message =>
                    mkTurn (message_type message)
                           (message_content message))
                 messages))
        (fun _ => Ok [])
  end.

Definition get_system_info (self : t) (vector_store : VectorStore.t)
    : result SystemInfo :=
  vector_info <- VectorStore.get_store_info S vector_store ;;
  Ok {| info_model_name := model_name self;
        vector_store_status := VectorStore.status vector_info;
        document_count := VectorStore.count vector_info;
        memory_initialized := is_some (memory self);
        qa_chain_initialized := is_some (qa_chain self) |}.

End Methods.

End RAGPipeline.

(* ================================================================= *)
(** ** [app.py]: the session and the pipeline bootstrap *)

Module App.

(** The part of [st.session_state] the bootstrap touches. *)
Record Session := mkSession {
  vector_store : VectorStore.t;
  rag_pipeline : option RAGPipeline.t
}.

Definition initialize_rag_pipeline (S : Services) (session : Session)
    : result (bool * Session) :=
  info <- VectorStore.get_store_info S (vector_store session) ;;
  if 0 <? VectorStore.count info
  then
    try_except
      (pipeline <- RAGPipeline.__init__ S (vector_store session)
                     (py "mistral") ;;
       Ok (true, {| vector_store := vector_store session;
                    rag_pipeline := Some pipeline |}))
      (fun _ => Ok (false, session))
  else Ok (false, session).

(** The start of every script run: with no pipeline in the session, the
    store tries to open the index on disk and the bootstrap runs. *)
Definition startup (S : Services) (session : Session) (disk : Disk.t)
    : result Session :=
  match rag_pipeline session with
  | None =>
      loaded <- VectorStore.load_existing_store S (vector_store session)
                  disk ;;
      initialized <-
        initialize_rag_pipeline S
          {| vector_store := snd loaded;
             rag_pipeline := rag_pipeline session |} ;;
      Ok (snd initialized)
  | Some _ => Ok session
  end.

(** An entry of [st.session_state.messages]: its role, its text and the
    sources shown with it. *)
Record ChatMessage := mkChatMessage {
  role : str;
  text : str;
  sources : list RAGPipeline.Source
}.

(** The session with the chat transcript and the names of the files
    uploaded last. *)
Record Page := mkPage {
  session : Session;
  messages : list ChatMessage;
  uploaded_files : list str
}.




(** One question typed in the chat box, up to rendering and timing: the
    user's message is appended, the pipeline is asked, and the reply is
    appended with its sources, or with none when the result is an
    error.  Without a pipeline there is no chat box. *)
Definition chat_turn (S : Services) (page : Page) (prompt : str)
    : result unit * Page :=
  match rag_pipeline (session page) with
  | None => (Ok tt, page)
  | Some pipeline =>
      let asked_messages :=
        messages page ++ [mkChatMessage (py "user") prompt []] in
      let asked := RAGPipeline.ask_question S pipeline prompt in
      let session' :=
        {| vector_store := vector_store (session page);
           rag_pipeline := Some (snd asked) |} in
      match fst asked with
      | Raise e =>
          (Raise e,
           {| session := session';
              messages := asked_messages;
              uploaded_files := uploaded_files page |})
      | Ok response =>
          let assistant_message := RAGPipeline.answer response in
          let sources :=
            if RAGPipeline.error response then []
            else RAGPipeline.source_documents response in
          (Ok tt,
           {| session := session';
              messages :=
                asked_messages
                ++ [mkChatMessage (py "assistant") assistant_message sources];
              uploaded_files := uploaded_files page |})
      end
  end.

(** Questions typed one after the other; a turn that raises ends the
    run. *)
Fixpoint chat (S : Services) (page : Page) (prompts : list str)
    : result unit * Page :=
  match prompts with
  | [] => (Ok tt, page)
  | prompt :: prompts' =>
      match chat_turn S page prompt with
      | (Ok _, page') => chat S page' prompts'
      | (Raise e, page') => (Raise e, page')
      end
  end.

End App.

(* ================================================================= *)
(** ** Concrete services and states *)

(** Executable instances of the services, used to run the program on
    concrete inputs. *)
Module Demo.

Definition refused : PyException := Exception (py "connection refused").

Definition guard (A : Type) (up : bool) (a : A) : result A :=
  if up then Ok a else Raise refused.

(** Services with switches: whether each embedding provider starts,
    whether the index answers, whether the chain can be built, and what
    the language model generates for a question. *)
Definition services (ollama_up fallback_up index_up chain_builds : bool)
    (generate : str -> result str) : Services :=
  {| OllamaEmbeddings := fun model => guard ollama_up (Ollama model);
     SentenceTransformerEmbeddings := fun model =>
       guard fallback_up (SentenceTransformer model);
     Chroma_from_documents := fun documents embedding dir disk =>
       guard index_up (mkChroma documents embedding dir, dir :: disk);
     Chroma_open := fun dir embedding =>
       guard index_up (mkChroma [] embedding dir);
     add_documents := fun index documents disk =>
       guard index_up
         (mkChroma (collection index ++ documents)
                   (embedding_function index) (directory index),
          disk);
     index_similarity_search := fun index query k =>
       guard index_up (firstn k (collection index));
     collection_count := fun index =>
       guard index_up (length (collection index));
     delete_collection := fun index => guard index_up tt;
     ChatOllama := fun model => Ok (mkLLM model);
     ConversationalRetrievalChain_from_llm := fun llm index k memory =>
       guard chain_builds (mkChain llm index k);
     call_chain := fun chain memory question =>
       match generate question with
       | Ok a =>
           (Ok (mkChainResult (Some a)
                  (Some (firstn (search_k chain)
                           (collection (retriever chain))))),
            option_map
              (fun messages =>
                 messages ++ [mkMessage (py "human") question;
                              mkMessage (py "ai") a])
              memory)
       | Raise e => (Raise e, memory)
       end;
     rmtree_failure := fun _ _ => None |}.

Definition echo (question : str) : result str :=
  Ok (py "You asked: " ++ question).

(** Everything works. *)
Definition reliable : Services := services true true true true echo.

(** Neither embedding provider starts. *)
Definition no_provider : Services := services false false true true echo.

(** Only the fallback provider starts. *)
Definition fallback_only : Services := services false true true true echo.

(** The index raises on every call. *)
Definition index_down : Services := services true true false true echo.

(** The chain cannot be built. *)
Definition no_chain : Services := services true true true false echo.

(** The language model is unreachable. *)
Definition model_down : Services :=
  services true true true true (fun _ => Raise refused).

Definition chroma_db : str := py "./chroma_db".

Definition doc (text : str) (i n : nat) : Document :=
  mkDocument text (mkMetadata (py "uploads/notes.txt") (py "txt") i n).

(** A store without an index. *)
Definition fresh_store : VectorStore.t :=
  VectorStore.mk chroma_db None (Ollama (py "mistral")).

(** A store whose index holds [documents]. *)
Definition store_of (documents : list Document) : VectorStore.t :=
  VectorStore.mk chroma_db
    (Some (mkChroma documents (Ollama (py "mistral")) chroma_db))
    (Ollama (py "mistral")).

(** A pipeline constructed before any upload. *)
Definition fresh_pipeline : RAGPipeline.t :=
  RAGPipeline.mk (py "mistral") (Some (mkLLM (py "mistral"))) (Some []) None.

(** A pipeline over an index of [documents]. *)
Definition pipeline_of (documents : list Document) : RAGPipeline.t :=
  RAGPipeline.mk (py "mistral") (Some (mkLLM (py "mistral"))) (Some [])
    (Some (mkChain (mkLLM (py "mistral"))
             (mkChroma documents (Ollama (py "mistral")) chroma_db) 4)).

(** A chunk of 201 characters. *)
Definition long_doc : Document := doc (repeat "a"%char 201) 0 1.

(** A directory of uploads holding one short text file. *)
Definition files : DocumentProcessor.Files :=
  {| DocumentProcessor.read := fun path =>
       if str_eqb path (py "uploads/notes.txt")
       then Ok (py "alpha beta gamma delta")
       else Raise (Exception (py "No such file or directory"));
     DocumentProcessor.pdf_pages := fun path =>
       Raise (Exception (py "No such file or directory"));
     DocumentProcessor.glob := fun dir =>
       [(py "uploads/notes.txt", true)] |}.

(** The chain answers without the key ["answer"]. *)
Definition no_answer_key : Services :=
  {| OllamaEmbeddings := OllamaEmbeddings reliable;
     SentenceTransformerEmbeddings := SentenceTransformerEmbeddings reliable;
     Chroma_from_documents := Chroma_from_documents reliable;
     Chroma_open := Chroma_open reliable;
     add_documents := add_documents reliable;
     index_similarity_search := index_similarity_search reliable;
     collection_count := collection_count reliable;
     delete_collection := delete_collection reliable;
     ChatOllama := ChatOllama reliable;
     ConversationalRetrievalChain_from_llm :=
       ConversationalRetrievalChain_from_llm reliable;
     call_chain := fun chain memory question =>
       (Ok (mkChainResult None (Some (collection (retriever chain)))),
        memory);
     rmtree_failure := rmtree_failure reliable |}.

(** The language model cannot be started. *)
Definition no_model : Services :=
  {| OllamaEmbeddings := OllamaEmbeddings reliable;
     SentenceTransformerEmbeddings := SentenceTransformerEmbeddings reliable;
     Chroma_from_documents := Chroma_from_documents reliable;
     Chroma_open := Chroma_open reliable;
     add_documents := add_documents reliable;
     index_similarity_search := index_similarity_search reliable;
     collection_count := collection_count reliable;
     delete_collection := delete_collection reliable;
     ChatOllama := fun _ => Raise refused;
     ConversationalRetrievalChain_from_llm :=
       ConversationalRetrievalChain_from_llm reliable;
     call_chain := call_chain reliable;
     rmtree_failure := rmtree_failure reliable |}.

(** The persist path cannot be removed: it is a regular file. *)
Definition not_a_directory : PyException :=
  Exception (py "[Errno 20] Not a directory: './chroma_db'").

Definition stuck_disk : Services :=
  {| OllamaEmbeddings := OllamaEmbeddings reliable;
     SentenceTransformerEmbeddings := SentenceTransformerEmbeddings reliable;
     Chroma_from_documents := Chroma_from_documents reliable;
     Chroma_open := Chroma_open reliable;
     add_documents := add_documents reliable;
     index_similarity_search := index_similarity_search reliable;
     collection_count := collection_count reliable;
     delete_collection := delete_collection reliable;
     ChatOllama := ChatOllama reliable;
     ConversationalRetrievalChain_from_llm :=
       ConversationalRetrievalChain_from_llm reliable;
     call_chain := call_chain reliable;
     rmtree_failure := fun disk path => Some (not_a_directory, disk) |}.

(** A fresh session: a store without an index and no pipeline. *)
Definition fresh_session : App.Session := App.mkSession fresh_store None.

(** A page in use: an index of one chunk, a pipeline over it, two
    messages in the transcript and one uploaded file. *)
Definition busy_page : App.Page :=
  App.mkPage
    (App.mkSession (store_of [long_doc]) (Some (pipeline_of [long_doc])))
    [App.mkChatMessage (py "user") (py "Why?") [];
     App.mkChatMessage (py "assistant") (py "You asked: Why?") []]
    [py "notes.txt"].

End Demo.

(* ================================================================= *)
(** ** Operations on a pipeline, for stating invariants over runs *)

Module Run.

(** The operations a caller may invoke on a constructed pipeline;
    [GetSystemInfo] carries the state of the shared store at the time
    of the call. *)
Inductive op :=
| Ask (question : str)
| ClearMemory
| GetHistory
| GetSystemInfo (vector_store : VectorStore.t).

(** The pipeline after one operation.  [get_chat_history] and
    [get_system_info] assign no attribute. *)
Definition step (S : Services) (self : RAGPipeline.t) (o : op)
    : RAGPipeline.t :=
  match o with
  | Ask question => snd (RAGPipeline.ask_question S self question)
  | ClearMemory => snd (RAGPipeline.clear_memory self)
  | GetHistory => self
  | GetSystemInfo _ => self
  end.

Definition run (S : Services) (self : RAGPipeline.t) (ops : list op)
    : RAGPipeline.t :=
  fold_left (step S) ops self.

(** Ready: the chain has been built. *)
Definition ready (self : RAGPipeline.t) : bool :=
  RAGPipeline.is_some (RAGPipeline.qa_chain self).

End Run.

(* ================================================================= *)
(** ** Operations on a store, for stating invariants over runs *)

Module StoreRun.

Inductive op :=
| Create (documents : list Document)
| Load
| Search (query : str) (k : nat)
| Info
| Clear.

(** The store and the disk after one operation.  [create_vector_store]
    and [load_existing_store] assign only after the call that may raise;
    [clear_store] leaves what it had done when the removal raises;
    [similarity_search] and [get_store_info] assign nothing. *)
Definition step (S : Services) (st : VectorStore.t * Disk.t) (o : op)
    : VectorStore.t * Disk.t :=
  match o with
  | Create documents =>
      match VectorStore.create_vector_store S (fst st) (snd st) documents with
      | Ok st' => st'
      | Raise _ => st
      end
  | Load =>
      match VectorStore.load_existing_store S (fst st) (snd st) with
      | Ok loaded => (snd loaded, snd st)
      | Raise _ => st
      end
  | Search _ _ => st
  | Info => st
  | Clear => snd (VectorStore.clear_store S (fst st) (snd st))
  end.

Definition run (S : Services) (st : VectorStore.t * Disk.t) (ops : list op)
    : VectorStore.t * Disk.t :=
  fold_left (step S) ops st.

End StoreRun.

(* ================================================================= *)
(** * Properties *)

(** ** Sanity checks of the models *)

Example suffix_demo :
  Path.suffix (py "uploads/Report.v2.PDF") = py ".PDF"
  /\ Path.suffix (py "uploads/.bashrc") = []
  /\ Path.suffix (py "a.b/notes") = []
  /\ lower (py ".PDF") = py ".pdf".
Proof. repeat split; reflexivity. Qed.

Example split_demo :
  TextSplitter.split_text 12 4 (py "one two three four five six")
  = [py "one two "; py "two three "; py "four five "; py "six"]
  /\ TextSplitter.split_text 5 0 (py "abcdefghijkl")
     = [py "abcde"; py "fghij"; py "kl"]
  /\ TextSplitter.split_text 1000 200 (py "short text") = [py "short text"]
  /\ TextSplitter.split_text 1000 200 [] = [].
Proof. repeat split; vm_compute; reflexivity. Qed.

Example process_file_demo :
  DocumentProcessor.process_file (DocumentProcessor.__init__ 12 0)
    Demo.files (py "uploads/notes.txt")
  = Ok [mkDocument (py "alpha beta ")
          (mkMetadata (py "uploads/notes.txt") (py "txt") 0 2);
        mkDocument (py "gamma delta")
          (mkMetadata (py "uploads/notes.txt") (py "txt") 1 2)].
Proof. vm_compute. reflexivity. Qed.

(* ================================================================= *)
(** ** The pipeline: asking questions *)

Section AskQuestion.

Variable S : Services.

Lemma ask_question_uninitialized (self : RAGPipeline.t) (question : str) :
  RAGPipeline.qa_chain self = None ->
  RAGPipeline.ask_question S self question = (Ok RAGPipeline.not_ready, self).
Proof.
  intros Hnone. unfold RAGPipeline.ask_question. rewrite Hnone. reflexivity.
Qed.

Lemma ask_question_keeps_chain (self : RAGPipeline.t) (question : str) :
  RAGPipeline.qa_chain (snd (RAGPipeline.ask_question S self question))
  = RAGPipeline.qa_chain self.
Proof.
  unfold RAGPipeline.ask_question.
  destruct (RAGPipeline.qa_chain self) eqn:Hchain; simpl; auto.
Qed.

Lemma clear_memory_keeps_chain (self : RAGPipeline.t) :
  RAGPipeline.qa_chain (snd (RAGPipeline.clear_memory self))
  = RAGPipeline.qa_chain self.
Proof.
  unfold RAGPipeline.clear_memory.
  destruct (RAGPipeline.memory self); reflexivity.
Qed.

(** C1. On a pipeline whose chain was never built, [ask_question]
    returns, for every question and without raising, the canned result:
    the error flag set, an answer saying the system is "not ready", and
    no sources. *)
Theorem ask_question_not_ready (self : RAGPipeline.t) (question : str) :
  RAGPipeline.qa_chain self = None ->
  exists r,
    fst (RAGPipeline.ask_question S self question) = Ok r
    /\ RAGPipeline.error r = true
    /\ contains (py "not ready") (RAGPipeline.answer r) = true
    /\ RAGPipeline.source_documents r = [].
Proof.
  intros Hnone. exists RAGPipeline.not_ready.
  rewrite (ask_question_uninitialized self question Hnone).
  repeat split; reflexivity.
Qed.

(** C10. Asking while the chain is not built leaves the pipeline, and
    with it the conversation memory, as it was: [get_chat_history]
    returns the same sequence after the call as before. *)
Theorem ask_question_not_ready_keeps_history
    (self : RAGPipeline.t) (question : str) :
  RAGPipeline.qa_chain self = None ->
  let self' := snd (RAGPipeline.ask_question S self question) in
  RAGPipeline.memory self' = RAGPipeline.memory self
  /\ RAGPipeline.get_chat_history self' = RAGPipeline.get_chat_history self.
Proof.
  intros Hnone self'. subst self'.
  rewrite (ask_question_uninitialized self question Hnone).
  split; reflexivity.
Qed.

(** C2. With the chain built, [ask_question] never raises; when the
    chain call raises [e], the result has the error flag set, the
    message ["Error processing question: "] followed by [str(e)], and
    no sources. *)
Theorem ask_question_catches (self : RAGPipeline.t) (question : str)
    (chain : Chain) :
  RAGPipeline.qa_chain self = Some chain ->
  raises (fst (RAGPipeline.ask_question S self question)) = false
  /\ forall e,
       fst (call_chain S chain (RAGPipeline.memory self) question) = Raise e ->
       fst (RAGPipeline.ask_question S self question)
       = Ok (RAGPipeline.mkAnswer
               (py "Error processing question: " ++ what e) [] true).
Proof.
  intros Hchain. unfold RAGPipeline.ask_question. rewrite Hchain.
  cbn [fst].
  destruct (fst (call_chain S chain (RAGPipeline.memory self) question))
    as [r | e0] eqn:Hcall.
  - split.
    + unfold bind, RAGPipeline.getitem_answer.
      destruct (result_answer r); reflexivity.
    + intros e He. discriminate He.
  - split.
    + reflexivity.
    + intros e He. injection He as ->. reflexivity.
Qed.

(** What [source_of] keeps of a retrieved document. *)
Lemma source_of_spec (doc : Document) :
  RAGPipeline.source_metadata (RAGPipeline.source_of doc) = metadata doc
  /\ (length (page_content doc) <= 200 ->
      RAGPipeline.content (RAGPipeline.source_of doc) = page_content doc)
  /\ (200 < length (page_content doc) ->
      RAGPipeline.content (RAGPipeline.source_of doc)
      = firstn 200 (page_content doc) ++ py "..."
      /\ length (RAGPipeline.content (RAGPipeline.source_of doc)) = 203).
Proof.
  unfold RAGPipeline.source_of. cbn [RAGPipeline.content
    RAGPipeline.source_metadata].
  split; [reflexivity | split].
  - intros Hle. apply Nat.ltb_ge in Hle. rewrite Hle. reflexivity.
  - intros Hlt. pose proof Hlt as Hb. apply Nat.ltb_lt in Hb. rewrite Hb.
    split; [reflexivity |].
    rewrite length_app, length_firstn. cbn [py list_ascii_of_string length].
    lia.
Qed.

(** C5, as the code has it.  In a successful result the sources are the
    documents the chain retrieved, in order, each with its metadata; the
    content is the chunk's content when that has at most 200 characters,
    and otherwise its first 200 characters followed by ["..."], 203
    characters in all. *)
Theorem ask_question_sources (self : RAGPipeline.t) (question : str)
    (r : RAGPipeline.Answer) :
  fst (RAGPipeline.ask_question S self question) = Ok r ->
  RAGPipeline.error r = false ->
  exists chain res,
    RAGPipeline.qa_chain self = Some chain
    /\ fst (call_chain S chain (RAGPipeline.memory self) question) = Ok res
    /\ RAGPipeline.source_documents r
       = map RAGPipeline.source_of (RAGPipeline.get_source_documents res)
    /\ forall i doc,
         nth_error (RAGPipeline.get_source_documents res) i = Some doc ->
         exists s,
           nth_error (RAGPipeline.source_documents r) i = Some s
           /\ RAGPipeline.source_metadata s = metadata doc
           /\ RAGPipeline.content s
              = (if 200 <? length (page_content doc)
                 then firstn 200 (page_content doc) ++ py "..."
                 else page_content doc)
           /\ length (RAGPipeline.content s) <= 203
           /\ (length (page_content doc) <= 200 ->
               RAGPipeline.content s = firstn 200 (page_content doc)).
Proof.
  unfold RAGPipeline.ask_question.
  destruct (RAGPipeline.qa_chain self) as [chain |] eqn:Hchain.
  - cbn [fst].
    destruct (fst (call_chain S chain (RAGPipeline.memory self) question))
      as [res | e] eqn:Hcall; cbn [bind try_except].
    + unfold RAGPipeline.getitem_answer.
      destruct (result_answer res) as [a |]; cbn [bind try_except];
        intros Hr Herr; injection Hr as <-; try discriminate Herr.
      exists chain, res. repeat split; auto.
      cbn [RAGPipeline.source_documents].
      intros i doc Hnth. exists (RAGPipeline.source_of doc).
      destruct (source_of_spec doc) as (Hmeta & Hshort & Hlong).
      split; [apply map_nth_error; exact Hnth |].
      split; [exact Hmeta |].
      split; [reflexivity |].
      destruct (le_lt_dec (length (page_content doc)) 200) as [Hle | Hlt].
      * rewrite (Hshort Hle). split; [lia |].
        intros _. symmetry. apply firstn_all2. exact Hle.
      * destruct (Hlong Hlt) as [_ Hlen]. rewrite Hlen. split; [lia |].
        intros Hle. lia.
    + intros Hr Herr. injection Hr as <-. discriminate Herr.
  - cbn [fst]. intros Hr Herr. injection Hr as <-. discriminate Herr.
Qed.

End AskQuestion.

(* ================================================================= *)
(** ** The pipeline: Uninitialized and Ready *)

Section Lifecycle.

Variable S : Services.

Lemma step_keeps_chain (self : RAGPipeline.t) (o : Run.op) :
  RAGPipeline.qa_chain (Run.step S self o) = RAGPipeline.qa_chain self.
Proof.
  destruct o; cbn [Run.step].
  - apply ask_question_keeps_chain.
  - apply clear_memory_keeps_chain.
  - reflexivity.
  - reflexivity.
Qed.

Lemma run_keeps_chain (ops : list Run.op) :
  forall self,
    RAGPipeline.qa_chain (Run.run S self ops) = RAGPipeline.qa_chain self.
Proof.
  unfold Run.run.
  induction ops as [| o ops IH]; intros self; cbn [fold_left].
  - reflexivity.
  - rewrite IH. apply step_keeps_chain.
Qed.

Lemma setup_qa_chain_some (vector_store : VectorStore.t) (llm : LLM)
    (memory : option (list Message)) (chain : Chain) :
  RAGPipeline._setup_qa_chain S vector_store llm memory = Ok (Some chain) <->
  exists index,
    VectorStore.vector_store vector_store = Some index
    /\ ConversationalRetrievalChain_from_llm S llm index 4 memory = Ok chain.
Proof.
  unfold RAGPipeline._setup_qa_chain.
  destruct (VectorStore.vector_store vector_store) as [index |].
  - destruct (ConversationalRetrievalChain_from_llm S llm index 4 memory)
      as [c | e] eqn:Hbuild; cbn [bind try_except]; split.
    + intros H. injection H as ->. exists index.
      split; [reflexivity | exact Hbuild].
    + intros (index' & Hidx & Hc). injection Hidx as <-.
      rewrite Hbuild in Hc. injection Hc as ->. reflexivity.
    + intros H. discriminate H.
    + intros (index' & Hidx & Hc). injection Hidx as <-.
      rewrite Hbuild in Hc. discriminate Hc.
  - split.
    + intros H. discriminate H.
    + intros (index' & Hidx & _). discriminate Hidx.
Qed.

Lemma setup_qa_chain_total (vector_store : VectorStore.t) (llm : LLM)
    (memory : option (list Message)) :
  exists c, RAGPipeline._setup_qa_chain S vector_store llm memory = Ok c.
Proof.
  unfold RAGPipeline._setup_qa_chain.
  destruct (VectorStore.vector_store vector_store) as [index |];
    [| eauto].
  destruct (ConversationalRetrievalChain_from_llm S llm index 4 memory);
    cbn [bind try_except]; eauto.
Qed.

(** A reported count above zero needs an index handle. *)
Lemma positive_count_has_index (vector_store : VectorStore.t)
    (info : VectorStore.Info) :
  VectorStore.get_store_info S vector_store = Ok info ->
  0 < VectorStore.count info ->
  exists index,
    VectorStore.vector_store vector_store = Some index
    /\ collection_count S index = Ok (VectorStore.count info).
Proof.
  unfold VectorStore.get_store_info.
  destruct (VectorStore.vector_store vector_store) as [index |].
  - destruct (collection_count S index) as [n | e] eqn:Hcount;
      cbn [bind try_except]; intros H Hpos; injection H as <-;
      cbn [VectorStore.count] in *.
    + exists index. split; [reflexivity | exact Hcount].
    + lia.
  - intros H Hpos. injection H as <-. cbn [VectorStore.count] in Hpos. lia.
Qed.

(** C3, as the code has it.  A constructed pipeline is Ready exactly
    when the store had an index handle at construction and building the
    chain over it did not raise; the count the store reports plays no
    part.  Whatever sequence of [ask_question], [clear_memory],
    [get_chat_history] and [get_system_info] follows, a pipeline that
    is not Ready stays so and a Ready pipeline stays Ready. *)
Theorem pipeline_ready_iff_index (vector_store : VectorStore.t)
    (model_name : str) (p : RAGPipeline.t) :
  RAGPipeline.__init__ S vector_store model_name = Ok p ->
  (Run.ready p = true <->
   exists index llm chain,
     VectorStore.vector_store vector_store = Some index
     /\ ChatOllama S model_name = Ok llm
     /\ ConversationalRetrievalChain_from_llm S llm index 4 (Some [])
        = Ok chain)
  /\ forall ops, Run.ready (Run.run S p ops) = Run.ready p.
Proof.
  intros Hinit. split.
  - unfold RAGPipeline.__init__, RAGPipeline._initialize_llm in Hinit.
    destruct (ChatOllama S model_name) as [llm |] eqn:Hllm;
      cbn [bind try_except] in Hinit; [| discriminate Hinit].
    destruct (RAGPipeline._setup_qa_chain S vector_store llm
                RAGPipeline._setup_memory) as [c |] eqn:Hsetup;
      cbn [bind] in Hinit; [| discriminate Hinit].
    injection Hinit as <-.
    unfold Run.ready. cbn [RAGPipeline.qa_chain].
    destruct c as [chain |]; cbn [RAGPipeline.is_some]; split.
    + intros _. apply setup_qa_chain_some in Hsetup.
      destruct Hsetup as (index & Hidx & Hbuild).
      exists index, llm, chain. auto.
    + reflexivity.
    + intros H. discriminate H.
    + intros (index & llm' & chain & Hidx & Hllm' & Hbuild).
      injection Hllm' as <-.
      assert (Hsome : RAGPipeline._setup_qa_chain S vector_store llm
                        RAGPipeline._setup_memory = Ok (Some chain)).
      { apply setup_qa_chain_some. exists index. auto. }
      rewrite Hsome in Hsetup. discriminate Hsetup.
  - intros ops. unfold Run.ready. rewrite run_keeps_chain. reflexivity.
Qed.

(** The bootstrap of the application constructs a pipeline only over a
    store that reports a count above zero. *)
Lemma initialize_rag_pipeline_gate (session session' : App.Session) :
  App.initialize_rag_pipeline S session = Ok (true, session') ->
  exists info p,
    VectorStore.get_store_info S (App.vector_store session) = Ok info
    /\ 0 < VectorStore.count info
    /\ RAGPipeline.__init__ S (App.vector_store session) (py "mistral")
       = Ok p
    /\ App.rag_pipeline session' = Some p.
Proof.
  unfold App.initialize_rag_pipeline.
  destruct (VectorStore.get_store_info S (App.vector_store session))
    as [info |]; cbn [bind]; [| intros H; discriminate H].
  destruct (0 <? VectorStore.count info) eqn:Hpos;
    [| intros H; discriminate H].
  destruct (RAGPipeline.__init__ S (App.vector_store session) (py "mistral"))
    as [p |]; cbn [bind try_except]; intros H; [| discriminate H].
  injection H as <-. exists info, p.
  apply Nat.ltb_lt in Hpos. auto.
Qed.

End Lifecycle.

(* ================================================================= *)
(** ** Strings and the disk *)

Lemma str_eqb_eq (a b : str) : str_eqb a b = true <-> a = b.
Proof.
  unfold str_eqb. destruct (list_eq_dec ascii_dec a b); split; intros H;
    auto; try discriminate H; contradiction.
Qed.

Lemma str_eqb_neq (a b : str) : str_eqb a b = false <-> a <> b.
Proof.
  unfold str_eqb. destruct (list_eq_dec ascii_dec a b); split; intros H;
    auto; try discriminate H; contradiction.
Qed.

Lemma exists_without (d : Disk.t) (p : str) :
  Disk.exists_ (Disk.without d p) p = false.
Proof.
  unfold Disk.exists_, Disk.without.
  induction d as [| q d IH]; cbn [filter existsb]; [reflexivity |].
  destruct (Disk.below p q) eqn:Hbelow; cbn [negb]; [exact IH |].
  cbn [existsb]. rewrite IH, orb_false_r.
  unfold Disk.below in Hbelow. apply orb_false_elim in Hbelow.
  destruct Hbelow as [Hqp _]. apply str_eqb_neq in Hqp.
  apply str_eqb_neq. congruence.
Qed.

(** A removal that returns leaves the path absent. *)
Lemma rmtree_ok_absent (failure : option (PyException * Disk.t))
    (d : Disk.t) (p : str) :
  fst (Disk.rmtree failure d p) = Ok tt ->
  failure = None
  /\ snd (Disk.rmtree failure d p) = Disk.without d p
  /\ Disk.exists_ (snd (Disk.rmtree failure d p)) p = false.
Proof.
  unfold Disk.rmtree. destruct failure as [[e leftover] |]; cbn [fst snd].
  - intros H. discriminate H.
  - intros _. split; [reflexivity |]. split; [reflexivity |].
    apply exists_without.
Qed.

(* ================================================================= *)
(** ** The vector store *)

Section Store.

Variable S : Services.

(** What [clear_store] does: the handle is reset unless deleting the
    collection raised, and the directory, when there is one, is removed
    by [shutil.rmtree], whose outcome is the outcome of the call. *)
Lemma clear_store_shape (self : VectorStore.t) (disk : Disk.t) :
  exists v,
    VectorStore.clear_store S self disk
    = (if Disk.exists_ disk (VectorStore.persist_directory self)
       then fst (Disk.rmtree
                   (rmtree_failure S disk (VectorStore.persist_directory self))
                   disk (VectorStore.persist_directory self))
       else Ok tt,
       (VectorStore.set_vector_store self v,
        if Disk.exists_ disk (VectorStore.persist_directory self)
        then snd (Disk.rmtree
                    (rmtree_failure S disk
                       (VectorStore.persist_directory self))
                    disk (VectorStore.persist_directory self))
        else disk))
    /\ (v = None \/
        exists index e,
          v = Some index
          /\ VectorStore.vector_store self = Some index
          /\ delete_collection S index = Raise e).
Proof.
  unfold VectorStore.clear_store. destruct self as [dir v emb].
  cbn [VectorStore.vector_store VectorStore.persist_directory
       VectorStore.set_vector_store VectorStore.embeddings].
  destruct v as [index |].
  - destruct (delete_collection S index) as [u | e] eqn:Hdel;
      cbn [VectorStore.persist_directory VectorStore.set_vector_store
           VectorStore.embeddings].
    + exists None. split; [| left; reflexivity].
      destruct (Disk.exists_ disk dir); reflexivity.
    + exists (Some index). split; [| right; exists index, e; auto].
      destruct (Disk.exists_ disk dir); reflexivity.
  - exists None. cbn [VectorStore.persist_directory].
    split; [| left; reflexivity].
    destruct (Disk.exists_ disk dir); reflexivity.
Qed.


(** The three answers of [get_store_info]. *)
Lemma get_store_info_cases (self : VectorStore.t) :
  (VectorStore.vector_store self = None
   /\ VectorStore.get_store_info S self
      = Ok (VectorStore.mkInfo (py "not_initialized") 0 None))
  \/ (exists index n,
        VectorStore.vector_store self = Some index
        /\ collection_count S index = Ok n
        /\ VectorStore.get_store_info S self
           = Ok (VectorStore.mkInfo (py "active") n None))
  \/ (exists index e,
        VectorStore.vector_store self = Some index
        /\ collection_count S index = Raise e
        /\ VectorStore.get_store_info S self
           = Ok (VectorStore.mkInfo (py "error") 0 (Some (what e)))).
Proof.
  unfold VectorStore.get_store_info.
  destruct (VectorStore.vector_store self) as [index |]; [| left; auto].
  destruct (collection_count S index) as [n | e] eqn:Hcount;
    cbn [bind try_except]; right; [left | right]; eauto.
Qed.

(** [get_store_info] never raises. *)
Lemma get_store_info_total (self : VectorStore.t) :
  raises (VectorStore.get_store_info S self) = false.
Proof.
  destruct (get_store_info_cases self)
    as [[_ H] | [(index & n & _ & _ & H) | (index & e & _ & _ & H)]];
    rewrite H; reflexivity.
Qed.

(** C7, as the code has it.  The constructor tries the Ollama provider
    first and keeps it when it starts; when it raises, the sentence
    transformer provider is tried and kept when it starts; when that
    raises too, the constructor raises that exception and no store is
    made.  A constructed store has no index, and [get_store_info] never
    raises: it reports ["not_initialized"] exactly when there is no
    index and ["error"] exactly when there is an index whose count call
    raises, then with count 0 and the message of that exception. *)
Theorem embedding_provider_selection (persist_directory : str) :
  (forall e,
     OllamaEmbeddings S (py "mistral") = Ok e ->
     VectorStore.__init__ S persist_directory
     = Ok (VectorStore.mk persist_directory None e))
  /\ (forall x e,
        OllamaEmbeddings S (py "mistral") = Raise x ->
        SentenceTransformerEmbeddings S (py "all-MiniLM-L6-v2") = Ok e ->
        VectorStore.__init__ S persist_directory
        = Ok (VectorStore.mk persist_directory None e))
  /\ (forall x y,
        OllamaEmbeddings S (py "mistral") = Raise x ->
        SentenceTransformerEmbeddings S (py "all-MiniLM-L6-v2") = Raise y ->
        VectorStore.__init__ S persist_directory = Raise y)
  /\ (forall self,
        raises (VectorStore.get_store_info S self) = false
        /\ (VectorStore.vector_store self = None ->
            VectorStore.get_store_info S self
            = Ok (VectorStore.mkInfo (py "not_initialized") 0 None))
        /\ (forall index e,
              VectorStore.vector_store self = Some index ->
              collection_count S index = Raise e ->
              VectorStore.get_store_info S self
              = Ok (VectorStore.mkInfo (py "error") 0 (Some (what e))))
        /\ exists info,
             VectorStore.get_store_info S self = Ok info
             /\ (VectorStore.status info = py "not_initialized" <->
                 VectorStore.vector_store self = None)
             /\ (VectorStore.status info = py "error" <->
                 exists index e,
                   VectorStore.vector_store self = Some index
                   /\ collection_count S index = Raise e)).
Proof.
  unfold VectorStore.__init__. repeat split.
  - intros e H. rewrite H. reflexivity.
  - intros x e Hx He. rewrite Hx. cbn [try_except]. rewrite He. reflexivity.
  - intros x y Hx Hy. rewrite Hx. cbn [try_except]. rewrite Hy. reflexivity.
  - apply get_store_info_total.
  - intros Hnone. unfold VectorStore.get_store_info. rewrite Hnone.
    reflexivity.
  - intros index e Hidx Hcount. unfold VectorStore.get_store_info.
    rewrite Hidx, Hcount. reflexivity.
  - destruct (get_store_info_cases self)
      as [[Hnone H] | [(index & n & Hidx & Hcount & H)
                      | (index & e & Hidx & Hcount & H)]];
      rewrite H; eexists; (split; [reflexivity |]);
      cbn [VectorStore.status]; split; split.
    + intros _. exact Hnone.
    + reflexivity.
    + intros Habs. vm_compute in Habs. discriminate Habs.
    + intros (index & e & Hidx & _). rewrite Hnone in Hidx.
      discriminate Hidx.
    + intros Habs. vm_compute in Habs. discriminate Habs.
    + intros Hnone. rewrite Hnone in Hidx. discriminate Hidx.
    + intros Habs. vm_compute in Habs. discriminate Habs.
    + intros (index' & e & Hidx' & Hraise). rewrite Hidx in Hidx'.
      injection Hidx' as <-. rewrite Hcount in Hraise. discriminate Hraise.
    + intros Habs. vm_compute in Habs. discriminate Habs.
    + intros Hnone. rewrite Hnone in Hidx. discriminate Hidx.
    + intros _. exists index, e. auto.
    + reflexivity.
Qed.

End Store.

(* ================================================================= *)
(** ** The document processor *)

Lemma enumerate_from_nth (A : Type) (l : list A) :
  forall k i j x,
    nth_error (enumerate_from k l) i = Some (j, x) ->
    j = k + i /\ nth_error l i = Some x.
Proof.
  induction l as [| y l IH]; intros k i j x H.
  - destruct i; discriminate H.
  - destruct i as [| i]; cbn [enumerate_from nth_error] in *.
    + injection H as <- <-. split; [lia | reflexivity].
    + apply IH in H. destruct H as [-> Hx]. split; [lia | exact Hx].
Qed.

Lemma enumerate_from_length (A : Type) (l : list A) :
  forall k, length (enumerate_from k l) = length l.
Proof.
  induction l as [| y l IH]; intros k; cbn [enumerate_from length];
    [reflexivity | rewrite IH; reflexivity].
Qed.

Section Processor.

Variable self : DocumentProcessor.t.
Variable fs : DocumentProcessor.Files.

Lemma documents_of_traceable (file_path ty : str) (chunks : list str) :
  DocumentProcessor.traceable file_path ty
    (DocumentProcessor.documents_of file_path ty chunks).
Proof.
  intros i d Hnth. unfold DocumentProcessor.documents_of in *.
  rewrite length_map. unfold enumerate in *.
  rewrite enumerate_from_length.
  rewrite nth_error_map in Hnth.
  destruct (nth_error (enumerate_from 0 chunks) i) as [[j c] |] eqn:Hjc;
    cbn [option_map] in Hnth; [| discriminate Hnth].
  injection Hnth as <-.
  apply enumerate_from_nth in Hjc. destruct Hjc as [-> _].
  cbn. auto.
Qed.

Lemma nil_traceable (file_path ty : str) :
  DocumentProcessor.traceable file_path ty [].
Proof. intros i d H. destruct i; discriminate H. Qed.

Lemma load_txt_traceable (file_path : str) (docs : list Document) :
  DocumentProcessor.load_txt self fs file_path = Ok docs ->
  DocumentProcessor.traceable file_path (py "txt") docs.
Proof.
  unfold DocumentProcessor.load_txt.
  destruct (DocumentProcessor.read fs file_path) as [text |];
    cbn [bind try_except].
  - destruct (DocumentProcessor.text_splitter self text) as [chunks |];
      cbn [bind try_except]; intros H; injection H as <-.
    + apply documents_of_traceable.
    + apply nil_traceable.
  - intros H. injection H as <-. apply nil_traceable.
Qed.

Lemma load_md_traceable (file_path : str) (docs : list Document) :
  DocumentProcessor.load_md self fs file_path = Ok docs ->
  DocumentProcessor.traceable file_path (py "markdown") docs.
Proof.
  unfold DocumentProcessor.load_md.
  destruct (DocumentProcessor.read fs file_path) as [text |];
    cbn [bind try_except].
  - destruct (DocumentProcessor.text_splitter self text) as [chunks |];
      cbn [bind try_except]; intros H; injection H as <-.
    + apply documents_of_traceable.
    + apply nil_traceable.
  - intros H. injection H as <-. apply nil_traceable.
Qed.

Lemma load_pdf_traceable (file_path : str) (docs : list Document) :
  DocumentProcessor.load_pdf self fs file_path = Ok docs ->
  DocumentProcessor.traceable file_path (py "pdf") docs.
Proof.
  unfold DocumentProcessor.load_pdf.
  destruct (DocumentProcessor.pdf_pages fs file_path) as [pages |];
    cbn [bind try_except].
  - match goal with
    | |- context [DocumentProcessor.text_splitter self ?text] =>
        destruct (DocumentProcessor.text_splitter self text) as [chunks |]
    end; cbn [bind try_except]; intros H; injection H as <-.
    + apply documents_of_traceable.
    + apply nil_traceable.
  - intros H. injection H as <-. apply nil_traceable.
Qed.

(** [process_file] never raises: each loader catches what reading and
    splitting raise. *)
Lemma process_file_total (file_path : str) :
  raises (DocumentProcessor.process_file self fs file_path) = false.
Proof.
  unfold DocumentProcessor.process_file, DocumentProcessor.load_pdf,
    DocumentProcessor.load_txt, DocumentProcessor.load_md.
  repeat match goal with
         | |- context [if ?b then _ else _] => destruct b
         end;
    try reflexivity.
  - destruct (DocumentProcessor.pdf_pages fs file_path) as [pages |];
      cbn [bind try_except raises]; [| reflexivity].
    match goal with
    | |- context [DocumentProcessor.text_splitter self ?text] =>
        destruct (DocumentProcessor.text_splitter self text)
    end; reflexivity.
  - destruct (DocumentProcessor.read fs file_path) as [text |];
      cbn [bind try_except raises]; [| reflexivity].
    destruct (DocumentProcessor.text_splitter self text); reflexivity.
  - destruct (DocumentProcessor.read fs file_path) as [text |];
      cbn [bind try_except raises]; [| reflexivity].
    destruct (DocumentProcessor.text_splitter self text); reflexivity.
Qed.

(** C8.  Every document returned by [process_file] has as source the
    path given, as type the format of the file (["pdf"] for [.pdf],
    ["txt"] for [.txt], ["markdown"] for [.md]), as chunk number its
    position in the returned list and as total the length of that
    list. *)
Theorem process_file_metadata (file_path : str) (docs : list Document)
    (i : nat) (d : Document) :
  DocumentProcessor.process_file self fs file_path = Ok docs ->
  nth_error docs i = Some d ->
  source (metadata d) = file_path
  /\ chunk (metadata d) = i
  /\ total_chunks (metadata d) = length docs
  /\ (DocumentProcessor.file_extension file_path = py ".pdf" ->
      type (metadata d) = py "pdf")
  /\ (DocumentProcessor.file_extension file_path = py ".txt" ->
      type (metadata d) = py "txt")
  /\ (DocumentProcessor.file_extension file_path = py ".md" ->
      type (metadata d) = py "markdown").
Proof.
  unfold DocumentProcessor.process_file.
  intros Hrun Hnth.
  destruct (str_eqb (DocumentProcessor.file_extension file_path) (py ".pdf"))
    eqn:Hpdf;
    [| destruct (str_eqb (DocumentProcessor.file_extension file_path)
                   (py ".txt")) eqn:Htxt;
       [| destruct (str_eqb (DocumentProcessor.file_extension file_path)
                      (py ".md")) eqn:Hmd]].
  - apply str_eqb_eq in Hpdf.
    destruct (@load_pdf_traceable file_path docs Hrun i d Hnth)
      as (Hs & Ht & Hc & Hn).
    repeat split; auto; rewrite Hpdf; intros H; discriminate H.
  - apply str_eqb_eq in Htxt.
    destruct (@load_txt_traceable file_path docs Hrun i d Hnth)
      as (Hs & Ht & Hc & Hn).
    repeat split; auto; rewrite Htxt; intros H; discriminate H.
  - apply str_eqb_eq in Hmd.
    destruct (@load_md_traceable file_path docs Hrun i d Hnth)
      as (Hs & Ht & Hc & Hn).
    repeat split; auto; rewrite Hmd; intros H; discriminate H.
  - injection Hrun as <-. destruct i; discriminate Hnth.
Qed.

(** C9.  For a path whose extension is none of [.pdf], [.txt], [.md],
    [process_file] returns the empty list without raising, and
    [create_vector_store] on that list returns without raising and
    leaves the store and the disk as they were: no index is created
    and the reported information is unchanged. *)
Theorem unsupported_extension_no_mutation (S : Services)
    (file_path : str) (store : VectorStore.t) (disk : Disk.t) :
  DocumentProcessor.file_extension file_path <> py ".pdf" ->
  DocumentProcessor.file_extension file_path <> py ".txt" ->
  DocumentProcessor.file_extension file_path <> py ".md" ->
  DocumentProcessor.process_file self fs file_path = Ok []
  /\ (documents <- DocumentProcessor.process_file self fs file_path ;;
      VectorStore.create_vector_store S store disk documents)
     = Ok (store, disk)
  /\ forall store' disk',
       (documents <- DocumentProcessor.process_file self fs file_path ;;
        VectorStore.create_vector_store S store disk documents)
       = Ok (store', disk') ->
       VectorStore.vector_store store' = VectorStore.vector_store store
       /\ VectorStore.get_store_info S store'
          = VectorStore.get_store_info S store.
Proof.
  intros Hpdf Htxt Hmd.
  assert (Hnil : DocumentProcessor.process_file self fs file_path = Ok []).
  { unfold DocumentProcessor.process_file.
    apply str_eqb_neq in Hpdf, Htxt, Hmd.
    rewrite Hpdf, Htxt, Hmd. reflexivity. }
  rewrite Hnil. cbn [bind VectorStore.create_vector_store].
  split; [reflexivity | split; [reflexivity |]].
  intros store' disk' H. injection H as <- <-. split; reflexivity.
Qed.

End Processor.

(* ================================================================= *)
(** ** The chunker *)

Section Chunker.

Import TextSplitter.

(** Cutting loses no character. *)
Lemma cut_at_concat (sep : str) (s : str) :
  forall skip cur, concat (cut_at sep skip cur s) = rev cur ++ s.
Proof.
  induction s as [| c s IH]; intros skip cur.
  - cbn [cut_at concat]. rewrite !app_nil_r. reflexivity.
  - cbn [cut_at].
    set (pending := match skip with
                    | 0 => if startswith sep (c :: s) then length sep else 0
                    | Datatypes.S _ => skip
                    end).
    destruct pending as [| [| k]].
    + rewrite IH. cbn [rev]. rewrite <- app_assoc. reflexivity.
    + cbn [concat]. rewrite IH. cbn [rev app]. rewrite <- app_assoc.
      reflexivity.
    + rewrite IH. cbn [rev]. rewrite <- app_assoc. reflexivity.
Qed.

Lemma concat_filter_nonempty (l : list str) :
  concat (filter nonempty l) = concat l.
Proof.
  induction l as [| x l IH]; [reflexivity |].
  cbn [filter concat]. unfold nonempty at 1.
  destruct (str_eqb x []) eqn:Hx; cbn [negb].
  - apply str_eqb_eq in Hx. subst x. exact IH.
  - cbn [concat]. rewrite IH. reflexivity.
Qed.

Lemma concat_singletons (s : str) : concat (map (fun c => [c]) s) = s.
Proof.
  induction s as [| c s IH]; [reflexivity |].
  cbn [map concat app]. rewrite IH. reflexivity.
Qed.

Lemma split_on_concat (sep text : str) : concat (split_on sep text) = text.
Proof.
  unfold split_on. destruct sep as [| a sep].
  - apply concat_singletons.
  - rewrite concat_filter_nonempty, cut_at_concat. reflexivity.
Qed.

Lemma piece_length (l : list str) (p : str) :
  In p l -> length p <= total_len l.
Proof.
  unfold total_len.
  induction l as [| x l IH]; intros Hin; [contradiction |].
  cbn [concat]. rewrite length_app.
  destruct Hin as [-> | Hin]; [lia | specialize (IH Hin); lia].
Qed.

(** A text that fits in a chunk is cut at the first separator only. *)
Lemma pieces_fit (chunk_size : nat) (sep : str) (seps : list str)
    (text : str) :
  length text <= chunk_size ->
  pieces chunk_size (sep :: seps) text = split_on sep text.
Proof.
  intros Hfit. cbn [pieces].
  assert (Hall : forall p, In p (split_on sep text) ->
                           length p <= chunk_size).
  { intros p Hin. apply piece_length in Hin.
    unfold total_len in Hin. rewrite split_on_concat in Hin. lia. }
  induction (split_on sep text) as [| p l IH]; [reflexivity |].
  cbn [flat_map].
  assert (Hp : (length p <=? chunk_size) = true).
  { apply Nat.leb_le. apply Hall. left. reflexivity. }
  rewrite Hp, IH; [reflexivity |].
  intros q Hq. apply Hall. right. exact Hq.
Qed.

Lemma total_len_app (a b : list str) :
  total_len (a ++ b) = total_len a + total_len b.
Proof. unfold total_len. rewrite concat_app, length_app. reflexivity. Qed.

Lemma total_len_cons (p : str) (l : list str) :
  total_len (p :: l) = length p + total_len l.
Proof. unfold total_len. cbn [concat]. apply length_app. Qed.

Lemma total_len_nil : total_len [] = 0.
Proof. reflexivity. Qed.

(** Pieces that fit together in one chunk are merged into one chunk. *)
Lemma merge_fit (chunk_size overlap : nat) (ps : list str) :
  forall window,
    total_len window + total_len ps <= chunk_size ->
    merge chunk_size overlap window ps = emit (window ++ ps).
Proof.
  induction ps as [| p ps IH]; intros window Hfit.
  - cbn [merge]. rewrite app_nil_r. reflexivity.
  - rewrite total_len_cons in Hfit. cbn [merge].
    destruct window as [| w window].
    + rewrite total_len_nil in Hfit. rewrite IH; [reflexivity |].
      rewrite total_len_cons, total_len_nil. lia.
    + assert (Htest : (total_len (w :: window) + length p <=? chunk_size)
                      = true) by (apply Nat.leb_le; lia).
      rewrite Htest, IH.
      * rewrite <- app_assoc. reflexivity.
      * rewrite total_len_app, (total_len_cons p []), total_len_nil. lia.
Qed.

Lemma split_text_fit (chunk_size chunk_overlap : nat) (text : str) :
  length text <= chunk_size ->
  split_text chunk_size chunk_overlap text
  = emit (split_on [newline; newline] text).
Proof.
  intros Hfit. unfold split_text, separators.
  rewrite pieces_fit by exact Hfit.
  rewrite merge_fit; [reflexivity |].
  rewrite total_len_nil. unfold total_len. rewrite split_on_concat. lia.
Qed.

(** C6.  A non-empty text strictly shorter than the chunk size is
    returned as exactly one chunk, equal to the text; the empty text
    gives no chunk.  This holds for the splitter configured by
    [DocumentProcessor.__init__] whatever the sizes. *)
Theorem split_text_short (chunk_size chunk_overlap : nat) :
  (forall text,
     text <> [] ->
     length text < chunk_size ->
     split_text chunk_size chunk_overlap text = [text]
     /\ DocumentProcessor.text_splitter
          (DocumentProcessor.__init__ chunk_size chunk_overlap) text
        = Ok [text])
  /\ split_text chunk_size chunk_overlap [] = []
  /\ DocumentProcessor.text_splitter
       (DocumentProcessor.__init__ chunk_size chunk_overlap) [] = Ok [].
Proof.
  assert (Hempty : split_text chunk_size chunk_overlap [] = []).
  { rewrite split_text_fit by (cbn [length]; lia). reflexivity. }
  assert (Hone : forall text, text <> [] -> length text < chunk_size ->
                   split_text chunk_size chunk_overlap text = [text]).
  { intros text Hne Hlt. rewrite split_text_fit by lia.
    pose proof (split_on_concat [newline; newline] text) as Hcat.
    destruct (split_on [newline; newline] text) as [| p l].
    - cbn [concat] in Hcat. congruence.
    - cbn [emit]. rewrite Hcat. reflexivity. }
  split; [| split].
  - intros text Hne Hlt. cbn [DocumentProcessor.text_splitter
      DocumentProcessor.__init__].
    rewrite (Hone text Hne Hlt). split; reflexivity.
  - exact Hempty.
  - cbn [DocumentProcessor.text_splitter DocumentProcessor.__init__].
    rewrite Hempty. reflexivity.
Qed.

End Chunker.

(* ================================================================= *)
(** ** The properties on concrete runs *)

Lemma ask_question_not_ready_witness :
  RAGPipeline.qa_chain Demo.fresh_pipeline = None
  /\ exists r,
       fst (RAGPipeline.ask_question Demo.reliable Demo.fresh_pipeline
              (py "What does the report say?")) = Ok r
       /\ RAGPipeline.error r = true
       /\ contains (py "not ready") (RAGPipeline.answer r) = true
       /\ RAGPipeline.source_documents r = [].
Proof.
  split; [reflexivity |].
  apply (@ask_question_not_ready Demo.reliable Demo.fresh_pipeline
           (py "What does the report say?")).
  reflexivity.
Defined.

Lemma ask_question_not_ready_keeps_history_witness :
  RAGPipeline.qa_chain Demo.fresh_pipeline = None
  /\ RAGPipeline.get_chat_history
       (snd (RAGPipeline.ask_question Demo.reliable Demo.fresh_pipeline
               (py "What does the report say?")))
     = RAGPipeline.get_chat_history Demo.fresh_pipeline.
Proof.
  split; [reflexivity |].
  apply (@ask_question_not_ready_keeps_history Demo.reliable
           Demo.fresh_pipeline (py "What does the report say?")).
  reflexivity.
Defined.

Lemma ask_question_catches_witness :
  raises (fst (RAGPipeline.ask_question Demo.model_down
                 (Demo.pipeline_of [Demo.long_doc]) (py "Why?"))) = false
  /\ fst (RAGPipeline.ask_question Demo.model_down
            (Demo.pipeline_of [Demo.long_doc]) (py "Why?"))
     = Ok (RAGPipeline.mkAnswer
             (py "Error processing question: connection refused") [] true).
Proof.
  pose proof (@ask_question_catches Demo.model_down
                (Demo.pipeline_of [Demo.long_doc]) (py "Why?") _ eq_refl)
    as H.
  split; [exact (proj1 H) |].
  apply (proj2 H Demo.refused). reflexivity.
Defined.

(** The sources of a successful answer over an index holding one chunk
    of 201 characters. *)
Lemma ask_question_sources_witness :
  exists chain res,
    RAGPipeline.qa_chain (Demo.pipeline_of [Demo.long_doc]) = Some chain
    /\ fst (call_chain Demo.reliable chain (Some []) (py "Why?")) = Ok res
    /\ [RAGPipeline.mkSource (repeat "a"%char 200 ++ py "...")
          (metadata Demo.long_doc)]
       = map RAGPipeline.source_of (RAGPipeline.get_source_documents res).
Proof.
  destruct (@ask_question_sources Demo.reliable
              (Demo.pipeline_of [Demo.long_doc]) (py "Why?")
              (RAGPipeline.mkAnswer (py "You asked: Why?")
                 [RAGPipeline.mkSource (repeat "a"%char 200 ++ py "...")
                    (metadata Demo.long_doc)]
                 false)
              eq_refl eq_refl)
    as (chain & res & Hchain & Hcall & Hsources & _).
  exists chain, res. auto.
Defined.

(** C5 fails as stated: a retrieved chunk of 201 characters is shown as a
    source of 203 characters, its first 200 followed by ["..."]. *)
Lemma source_content_longer_than_200 :
  fst (RAGPipeline.ask_question Demo.reliable
         (Demo.pipeline_of [Demo.long_doc]) (py "Why?"))
  = Ok (RAGPipeline.mkAnswer (py "You asked: Why?")
          [RAGPipeline.mkSource (repeat "a"%char 200 ++ py "...")
             (metadata Demo.long_doc)]
          false)
  /\ length (page_content Demo.long_doc) = 201
  /\ length (repeat "a"%char 200 ++ py "...") = 203
  /\ repeat "a"%char 200 ++ py "..." <> firstn 200 (page_content Demo.long_doc).
Proof.
  repeat split; try (vm_compute; reflexivity).
  intros H. apply (f_equal (@length ascii)) in H. vm_compute in H.
  discriminate H.
Qed.

Lemma pipeline_ready_iff_index_witness :
  (Run.ready (Demo.pipeline_of []) = true <->
   exists index llm chain,
     VectorStore.vector_store (Demo.store_of []) = Some index
     /\ ChatOllama Demo.reliable (py "mistral") = Ok llm
     /\ ConversationalRetrievalChain_from_llm Demo.reliable llm index 4
          (Some []) = Ok chain)
  /\ forall ops,
       Run.ready (Run.run Demo.reliable (Demo.pipeline_of []) ops)
       = Run.ready (Demo.pipeline_of []).
Proof.
  apply (@pipeline_ready_iff_index Demo.reliable (Demo.store_of [])
           (py "mistral") (Demo.pipeline_of [])).
  reflexivity.
Defined.

(** C3 fails as stated, in both directions.  A store that opened an
    existing, empty index reports count 0, and the pipeline constructed
    over it is Ready.  A store that reports count 1 while the chain
    cannot be built gives a pipeline that is not Ready. *)
Lemma ready_does_not_follow_count :
  (VectorStore.load_existing_store Demo.reliable Demo.fresh_store
     [Demo.chroma_db] = Ok (true, Demo.store_of [])
   /\ VectorStore.get_store_info Demo.reliable (Demo.store_of [])
      = Ok (VectorStore.mkInfo (py "active") 0 None)
   /\ RAGPipeline.__init__ Demo.reliable (Demo.store_of []) (py "mistral")
      = Ok (Demo.pipeline_of [])
   /\ Run.ready (Demo.pipeline_of []) = true)
  /\ (VectorStore.get_store_info Demo.no_chain
        (Demo.store_of [Demo.long_doc])
      = Ok (VectorStore.mkInfo (py "active") 1 None)
      /\ RAGPipeline.__init__ Demo.no_chain (Demo.store_of [Demo.long_doc])
           (py "mistral") = Ok Demo.fresh_pipeline
      /\ Run.ready Demo.fresh_pipeline = false).
Proof. repeat split; vm_compute; reflexivity. Qed.



Lemma embedding_provider_selection_witness :
  VectorStore.__init__ Demo.fallback_only Demo.chroma_db
  = Ok (VectorStore.mk Demo.chroma_db None
          (SentenceTransformer (py "all-MiniLM-L6-v2"))).
Proof.
  destruct (@embedding_provider_selection Demo.fallback_only Demo.chroma_db)
    as (_ & Hfallback & _).
  apply (Hfallback Demo.refused); reflexivity.
Defined.

(** C7 fails as stated: when neither provider starts, the constructor
    raises and there is no store to report any status. *)
Lemma no_provider_raises :
  OllamaEmbeddings Demo.no_provider (py "mistral") = Raise Demo.refused
  /\ SentenceTransformerEmbeddings Demo.no_provider (py "all-MiniLM-L6-v2")
     = Raise Demo.refused
  /\ VectorStore.__init__ Demo.no_provider Demo.chroma_db
     = Raise Demo.refused.
Proof. repeat split; reflexivity. Qed.

Lemma split_text_short_witness :
  TextSplitter.split_text 1000 200 (py "short text") = [py "short text"]
  /\ DocumentProcessor.text_splitter (DocumentProcessor.__init__ 1000 200)
       (py "short text") = Ok [py "short text"].
Proof.
  apply (proj1 (split_text_short 1000 200) (py "short text")).
  - intros H. discriminate H.
  - cbn [py list_ascii_of_string length]. lia.
Defined.

Lemma process_file_metadata_witness :
  let d := mkDocument (py "gamma delta")
             (mkMetadata (py "uploads/notes.txt") (py "txt") 1 2) in
  source (metadata d) = py "uploads/notes.txt"
  /\ chunk (metadata d) = 1
  /\ total_chunks (metadata d) = 2
  /\ (DocumentProcessor.file_extension (py "uploads/notes.txt") = py ".pdf" ->
      type (metadata d) = py "pdf")
  /\ (DocumentProcessor.file_extension (py "uploads/notes.txt") = py ".txt" ->
      type (metadata d) = py "txt")
  /\ (DocumentProcessor.file_extension (py "uploads/notes.txt") = py ".md" ->
      type (metadata d) = py "markdown").
Proof.
  intros d.
  apply (@process_file_metadata (DocumentProcessor.__init__ 12 0) Demo.files
           (py "uploads/notes.txt")
           [mkDocument (py "alpha beta ")
              (mkMetadata (py "uploads/notes.txt") (py "txt") 0 2); d]
           1 d).
  - vm_compute. reflexivity.
  - reflexivity.
Defined.

Lemma unsupported_extension_no_mutation_witness :
  DocumentProcessor.process_file (DocumentProcessor.__init__ 1000 200)
    Demo.files (py "uploads/report.docx") = Ok []
  /\ (documents <- DocumentProcessor.process_file
                     (DocumentProcessor.__init__ 1000 200) Demo.files
                     (py "uploads/report.docx") ;;
      VectorStore.create_vector_store Demo.reliable Demo.fresh_store []
        documents)
     = Ok (Demo.fresh_store, []).
Proof.
  destruct (@unsupported_extension_no_mutation
              (DocumentProcessor.__init__ 1000 200) Demo.files Demo.reliable
              (py "uploads/report.docx") Demo.fresh_store [])
    as (Hnil & Hsame & _).
  - vm_compute. intros H. discriminate H.
  - vm_compute. intros H. discriminate H.
  - vm_compute. intros H. discriminate H.
  - split; [exact Hnil | exact Hsame].
Defined.

(* ================================================================= *)
(** ** More on the document processor *)

Lemma enumerate_from_snd (A : Type) (l : list A) :
  forall k, map snd (enumerate_from k l) = l.
Proof.
  induction l as [| x l IH]; intros k; cbn [enumerate_from map snd];
    [reflexivity | rewrite IH; reflexivity].
Qed.

Lemma documents_of_contents (file_path ty : str) (chunks : list str) :
  map page_content (DocumentProcessor.documents_of file_path ty chunks)
  = chunks.
Proof.
  unfold DocumentProcessor.documents_of, enumerate.
  rewrite map_map. cbn [page_content].
  apply enumerate_from_snd.
Qed.

(** The text of a PDF: its pages in order, each followed by a newline. *)
Lemma pdf_text_concat (pages : list str) :
  forall text,
    fold_left (fun text page => text ++ page ++ [TextSplitter.newline])
              pages text
    = text ++ concat (map (fun page => page ++ [TextSplitter.newline]) pages).
Proof.
  induction pages as [| page pages IH]; intros text; cbn [fold_left map concat].
  - rewrite app_nil_r. reflexivity.
  - rewrite IH, <- !app_assoc. reflexivity.
Qed.

Section ProcessorMore.

Variable self : DocumentProcessor.t.
Variable fs : DocumentProcessor.Files.

Lemma process_file_ok (file_path : str) :
  exists docs, DocumentProcessor.process_file self fs file_path = Ok docs.
Proof.
  pose proof (process_file_total self fs file_path) as H.
  destruct (DocumentProcessor.process_file self fs file_path) as [docs | e].
  - exists docs. reflexivity.
  - discriminate H.
Qed.

Lemma unsupported_nil (file_path : str) :
  DocumentProcessor.supported file_path = false ->
  DocumentProcessor.process_file self fs file_path = Ok [].
Proof.
  unfold DocumentProcessor.supported, DocumentProcessor.process_file.
  cbn [existsb]. intros H.
  destruct (str_eqb (DocumentProcessor.file_extension file_path) (py ".pdf"));
    [discriminate H |].
  destruct (str_eqb (DocumentProcessor.file_extension file_path) (py ".txt"));
    [discriminate H |].
  destruct (str_eqb (DocumentProcessor.file_extension file_path) (py ".md"));
    [discriminate H | reflexivity].
Qed.

Lemma process_file_traceable (file_path : str) (docs : list Document) :
  DocumentProcessor.process_file self fs file_path = Ok docs ->
  exists ty, DocumentProcessor.traceable file_path ty docs.
Proof.
  unfold DocumentProcessor.process_file.
  destruct (str_eqb (DocumentProcessor.file_extension file_path) (py ".pdf"));
    [intros H; eexists; eapply load_pdf_traceable; exact H |].
  destruct (str_eqb (DocumentProcessor.file_extension file_path) (py ".txt"));
    [intros H; eexists; eapply load_txt_traceable; exact H |].
  destruct (str_eqb (DocumentProcessor.file_extension file_path) (py ".md"));
    [intros H; eexists; eapply load_md_traceable; exact H |].
  intros H. injection H as <-. exists []. apply nil_traceable.
Qed.

(** X1.  Failures are isolated per file: [process_file] never raises,
    and a file of any format that cannot be read or parsed, or whose
    text the splitter rejects, gives the empty list. *)
Theorem process_file_isolates_failures (file_path : str) :
  raises (DocumentProcessor.process_file self fs file_path) = false
  /\ (forall e,
        DocumentProcessor.file_extension file_path <> py ".pdf" ->
        DocumentProcessor.read fs file_path = Raise e ->
        DocumentProcessor.process_file self fs file_path = Ok [])
  /\ (forall e,
        DocumentProcessor.file_extension file_path = py ".pdf" ->
        DocumentProcessor.pdf_pages fs file_path = Raise e ->
        DocumentProcessor.process_file self fs file_path = Ok [])
  /\ (forall text e,
        DocumentProcessor.file_extension file_path <> py ".pdf" ->
        DocumentProcessor.read fs file_path = Ok text ->
        DocumentProcessor.text_splitter self text = Raise e ->
        DocumentProcessor.process_file self fs file_path = Ok [])
  /\ (forall pages e,
        DocumentProcessor.file_extension file_path = py ".pdf" ->
        DocumentProcessor.pdf_pages fs file_path = Ok pages ->
        DocumentProcessor.text_splitter self
          (concat (map (fun page => page ++ [TextSplitter.newline]) pages))
        = Raise e ->
        DocumentProcessor.process_file self fs file_path = Ok []).
Proof.
  split; [apply process_file_total |].
  unfold DocumentProcessor.process_file, DocumentProcessor.load_pdf,
    DocumentProcessor.load_txt, DocumentProcessor.load_md.
  split; [| split; [| split]]; cycle 3.
  - intros pages e Hext Hpages Hsplit. rewrite Hext, Hpages. cbn [bind].
    rewrite pdf_text_concat. cbn [app]. rewrite Hsplit. reflexivity.
  - intros e Hext Hread. apply str_eqb_neq in Hext. rewrite Hext, Hread.
    cbn [bind try_except].
    repeat match goal with
           | |- context [if ?b then _ else _] => destruct b
           end; reflexivity.
  - intros e Hext Hpages. rewrite Hext, Hpages. reflexivity.
  - intros text e Hext Hread Hsplit. apply str_eqb_neq in Hext.
    rewrite Hext, Hread. cbn [bind]. rewrite Hsplit. cbn [bind try_except].
    repeat match goal with
           | |- context [if ?b then _ else _] => destruct b
           end; reflexivity.
Qed.

(** X2.  The documents of a file hold the chunks of its text, one
    document per chunk and in the splitter's order: for [.txt] and [.md]
    the text is the file's content, for [.pdf] it is the pages in order,
    each followed by a newline. *)
Theorem process_file_keeps_chunks (file_path : str) (chunks : list str) :
  (forall text,
     DocumentProcessor.file_extension file_path = py ".txt"
     \/ DocumentProcessor.file_extension file_path = py ".md" ->
     DocumentProcessor.read fs file_path = Ok text ->
     DocumentProcessor.text_splitter self text = Ok chunks ->
     exists docs,
       DocumentProcessor.process_file self fs file_path = Ok docs
       /\ map page_content docs = chunks
       /\ length docs = length chunks)
  /\ (forall pages,
        DocumentProcessor.file_extension file_path = py ".pdf" ->
        DocumentProcessor.pdf_pages fs file_path = Ok pages ->
        DocumentProcessor.text_splitter self
          (concat (map (fun page => page ++ [TextSplitter.newline]) pages))
        = Ok chunks ->
        exists docs,
          DocumentProcessor.process_file self fs file_path = Ok docs
          /\ map page_content docs = chunks
          /\ length docs = length chunks).
Proof.
  assert (Hdocs : forall ty,
            map page_content
              (DocumentProcessor.documents_of file_path ty chunks) = chunks
            /\ length (DocumentProcessor.documents_of file_path ty chunks)
               = length chunks).
  { intros ty. split; [apply documents_of_contents |].
    rewrite <- (documents_of_contents file_path ty chunks) at 2.
    rewrite length_map. reflexivity. }
  unfold DocumentProcessor.process_file, DocumentProcessor.load_pdf,
    DocumentProcessor.load_txt, DocumentProcessor.load_md.
  split.
  - intros text [Hext | Hext] Hread Hsplit; rewrite Hext;
      cbn [str_eqb]; rewrite Hread; cbn [bind]; rewrite Hsplit;
      eexists; (split; [vm_compute str_eqb; reflexivity | apply Hdocs]).
  - intros pages Hext Hpages Hsplit. rewrite Hext, Hpages. cbn [bind].
    rewrite pdf_text_concat. cbn [app]. rewrite Hsplit.
    eexists. split; [vm_compute str_eqb; reflexivity | apply Hdocs].
Qed.

Lemma process_directory_fold (entries : list (str * bool)) :
  forall acc,
    fold_left
      (fun acc entry =>
         documents <- acc ;;
         if snd entry && DocumentProcessor.supported (fst entry)
         then more <- DocumentProcessor.process_file self fs (fst entry) ;;
              Ok (documents ++ more)
         else Ok documents)
      entries (Ok acc)
    = Ok (acc ++
          flat_map
            (fun entry =>
               match DocumentProcessor.process_file self fs (fst entry) with
               | Ok docs => docs
               | Raise _ => []
               end)
            (filter (fun entry => snd entry) entries)).
Proof.
  induction entries as [| [path is_file] entries IH]; intros acc;
    cbn [fold_left filter flat_map fst snd bind].
  - rewrite app_nil_r. reflexivity.
  - destruct is_file; cbn [andb flat_map fst snd].
    + destruct (DocumentProcessor.supported path) eqn:Hsup.
      * destruct (process_file_ok path) as [docs Hdocs]. rewrite Hdocs.
        cbn [bind]. rewrite IH, <- app_assoc. reflexivity.
      * rewrite (unsupported_nil path Hsup). cbn [app]. apply IH.
    + apply IH.
Qed.

(** X3.  [process_directory] never raises and returns, in listing order,
    the documents [process_file] gives for each regular file of the
    directory; its own extension filter drops nothing [process_file]
    would have loaded. *)
Theorem process_directory_concat (directory_path : str) :
  DocumentProcessor.process_directory self fs directory_path
  = Ok (flat_map
          (fun entry =>
             match DocumentProcessor.process_file self fs (fst entry) with
             | Ok docs => docs
             | Raise _ => []
             end)
          (filter (fun entry => snd entry)
                  (DocumentProcessor.glob fs directory_path))).
Proof.
  unfold DocumentProcessor.process_directory.
  rewrite process_directory_fold. reflexivity.
Qed.

(** X4.  Every document of a directory batch names as its source a
    regular file of that directory with a supported extension, and its
    chunk number is below the total it records. *)
Theorem process_directory_sources (directory_path : str)
    (docs : list Document) (d : Document) :
  DocumentProcessor.process_directory self fs directory_path = Ok docs ->
  In d docs ->
  In (source (metadata d), true) (DocumentProcessor.glob fs directory_path)
  /\ DocumentProcessor.supported (source (metadata d)) = true
  /\ chunk (metadata d) < total_chunks (metadata d).
Proof.
  rewrite process_directory_concat. intros H Hin. injection H as <-.
  apply in_flat_map in Hin. destruct Hin as ([path is_file] & Hentry & Hd).
  apply filter_In in Hentry. cbn [snd fst] in *.
  destruct Hentry as [Hentry ->].
  destruct (DocumentProcessor.process_file self fs path) as [ds |] eqn:Hrun;
    [| contradiction].
  destruct (process_file_traceable path Hrun) as [ty Htrace].
  apply In_nth_error in Hd. destruct Hd as [i Hi].
  destruct (Htrace i d Hi) as (Hsrc & _ & Hchunk & Htotal).
  rewrite Hsrc, Hchunk, Htotal.
  split; [exact Hentry |]. split.
  - destruct (DocumentProcessor.supported path) eqn:Hsup; [reflexivity |].
    rewrite (unsupported_nil path Hsup) in Hrun. injection Hrun as <-.
    destruct i; discriminate Hi.
  - apply nth_error_Some. rewrite Hi. discriminate.
Qed.

End ProcessorMore.

(* ================================================================= *)
(** ** More on the vector store *)

Section StoreMore.

Variable S : Services.

Lemma create_vector_store_frame (self self' : VectorStore.t)
    (disk disk' : Disk.t) (documents : list Document) :
  VectorStore.create_vector_store S self disk documents = Ok (self', disk') ->
  self' = self \/ exists v, self' = VectorStore.set_vector_store self v.
Proof.
  unfold VectorStore.create_vector_store.
  destruct documents as [| doc documents].
  - intros H. injection H as <- <-. left. reflexivity.
  - destruct (VectorStore.vector_store self) as [index |].
    + destruct (add_documents S index (doc :: documents) disk) as [added |];
        cbn [bind]; intros H; [| discriminate H].
      injection H as <- <-. right. eexists. reflexivity.
    + destruct (Chroma_from_documents S (doc :: documents)
                  (VectorStore.embeddings self)
                  (VectorStore.persist_directory self) disk) as [created |];
        cbn [bind]; intros H; [| discriminate H].
      injection H as <- <-. right. eexists. reflexivity.
Qed.

Lemma load_existing_store_cases (self : VectorStore.t) (disk : Disk.t) :
  VectorStore.load_existing_store S self disk = Ok (false, self)
  \/ exists index,
       Disk.exists_ disk (VectorStore.persist_directory self) = true
       /\ Chroma_open S (VectorStore.persist_directory self)
            (VectorStore.embeddings self) = Ok index
       /\ VectorStore.load_existing_store S self disk
          = Ok (true, VectorStore.set_vector_store self (Some index)).
Proof.
  unfold VectorStore.load_existing_store.
  destruct (Disk.exists_ disk (VectorStore.persist_directory self));
    [| left; reflexivity].
  destruct (Chroma_open S (VectorStore.persist_directory self)
              (VectorStore.embeddings self)) as [index |];
    cbn [bind try_except].
  - right. exists index. auto.
  - left. reflexivity.
Qed.

Lemma step_keeps_configuration (st : VectorStore.t * Disk.t)
    (o : StoreRun.op) :
  VectorStore.persist_directory (fst (StoreRun.step S st o))
  = VectorStore.persist_directory (fst st)
  /\ VectorStore.embeddings (fst (StoreRun.step S st o))
     = VectorStore.embeddings (fst st).
Proof.
  destruct st as [self disk]. destruct o; cbn [StoreRun.step fst snd].
  - destruct (VectorStore.create_vector_store S self disk documents)
      as [[self' disk'] |] eqn:Hcreate; [| split; reflexivity].
    apply create_vector_store_frame in Hcreate.
    destruct Hcreate as [-> | [v ->]]; split; reflexivity.
  - destruct (load_existing_store_cases self disk)
      as [-> | (index & _ & _ & ->)]; split; reflexivity.
  - split; reflexivity.
  - split; reflexivity.
  - destruct (clear_store_shape S self disk) as (v & -> & _).
    cbn [fst snd]. split; reflexivity.
Qed.

(** X5.  The persist directory and the embedding provider chosen at
    construction stay fixed: no sequence of [create_vector_store],
    [load_existing_store], [similarity_search], [get_store_info] and
    [clear_store], succeeding or raising, changes either. *)
Theorem store_configuration_fixed (ops : list StoreRun.op) :
  forall st,
    VectorStore.persist_directory (fst (StoreRun.run S st ops))
    = VectorStore.persist_directory (fst st)
    /\ VectorStore.embeddings (fst (StoreRun.run S st ops))
       = VectorStore.embeddings (fst st).
Proof.
  unfold StoreRun.run.
  induction ops as [| o ops IH]; intros st; cbn [fold_left].
  - split; reflexivity.
  - destruct (IH (StoreRun.step S st o)) as [Hdir Hemb].
    destruct (step_keeps_configuration st o) as [Hdir' Hemb'].
    split; congruence.
Qed.

(** X6.  [get_store_info] never raises and reports one of three
    statuses: ["not_initialized"] with count 0 exactly when there is no
    index, ["active"] with the count the index gives, or ["error"] with
    count 0 and the message of the exception the count call raised.  A
    count above zero therefore comes with status ["active"]. *)
Theorem get_store_info_coherent (self : VectorStore.t) :
  exists info,
    VectorStore.get_store_info S self = Ok info
    /\ ((VectorStore.vector_store self = None
         /\ info = VectorStore.mkInfo (py "not_initialized") 0 None)
        \/ (exists index n,
              VectorStore.vector_store self = Some index
              /\ collection_count S index = Ok n
              /\ info = VectorStore.mkInfo (py "active") n None)
        \/ (exists index e,
              VectorStore.vector_store self = Some index
              /\ collection_count S index = Raise e
              /\ info = VectorStore.mkInfo (py "error") 0 (Some (what e))))
    /\ (0 < VectorStore.count info -> VectorStore.status info = py "active").
Proof.
  unfold VectorStore.get_store_info.
  destruct (VectorStore.vector_store self) as [index |].
  - destruct (collection_count S index) as [n | e] eqn:Hcount;
      cbn [bind try_except]; eexists; (split; [reflexivity |]); split.
    + right. left. exists index, n. auto.
    + reflexivity.
    + right. right. exists index, e. auto.
    + cbn [VectorStore.count]. lia.
  - eexists. split; [reflexivity |]. split.
    + left. auto.
    + cbn [VectorStore.count]. lia.
Qed.

(** X7.  [load_existing_store] never raises.  It returns [True] only
    when the persist directory exists and opening the index succeeded,
    and the store then holds that index; when it returns [False] the
    store is unchanged, so a failure to open keeps the index the store
    had. *)
Theorem load_existing_store_outcome (self : VectorStore.t) (disk : Disk.t) :
  exists loaded self',
    VectorStore.load_existing_store S self disk = Ok (loaded, self')
    /\ (loaded = false -> self' = self)
    /\ (loaded = true ->
        Disk.exists_ disk (VectorStore.persist_directory self) = true
        /\ exists index,
             Chroma_open S (VectorStore.persist_directory self)
               (VectorStore.embeddings self) = Ok index
             /\ VectorStore.vector_store self' = Some index)
    /\ (Disk.exists_ disk (VectorStore.persist_directory self) = false ->
        loaded = false).
Proof.
  destruct (load_existing_store_cases self disk)
    as [H | (index & Hex & Hopen & H)]; rewrite H.
  - exists false, self. split; [reflexivity |].
    split; [reflexivity |]. split; [intros Habs; discriminate Habs |].
    reflexivity.
  - eexists _, _. split; [reflexivity |].
    split; [intros Habs; discriminate Habs |]. split.
    + intros _. split; [exact Hex |]. exists index. auto.
    + intros Habs. rewrite Hex in Habs. discriminate Habs.
Qed.

(** X8.  After a [clear_store] that returned there is nothing to load:
    [load_existing_store] on the resulting store and disk returns
    [False] and changes nothing, whether or not deleting the collection
    raised. *)
Theorem clear_then_load (self self' : VectorStore.t) (disk disk' : Disk.t) :
  VectorStore.clear_store S self disk = (Ok tt, (self', disk')) ->
  VectorStore.load_existing_store S self' disk' = Ok (false, self').
Proof.
  destruct (clear_store_shape S self disk) as (v & Hclear & _).
  rewrite Hclear. intros H. injection H as Hout <- <-.
  assert (Habsent :
            Disk.exists_
              (if Disk.exists_ disk (VectorStore.persist_directory self)
               then snd (Disk.rmtree
                           (rmtree_failure S disk
                              (VectorStore.persist_directory self))
                           disk (VectorStore.persist_directory self))
               else disk)
              (VectorStore.persist_directory self) = false).
  { destruct (Disk.exists_ disk (VectorStore.persist_directory self)) eqn:Hex;
      [| exact Hex].
    apply rmtree_ok_absent. exact Hout. }
  unfold VectorStore.load_existing_store.
  destruct self as [dir index emb].
  cbn [VectorStore.persist_directory VectorStore.set_vector_store] in *.
  rewrite Habsent. reflexivity.
Qed.

(** X9.  Once the collection has been deleted, a search finds nothing
    and does not reach the index: after a [clear_store] whose deletion
    did not raise, whether or not the removal of the directory then
    raised, [similarity_search] returns the empty list for every query
    and every [k]. *)
Theorem clear_then_search (self : VectorStore.t) (disk : Disk.t)
    (query : str) (k : nat) :
  (forall index,
     VectorStore.vector_store self = Some index ->
     delete_collection S index = Ok tt) ->
  VectorStore.vector_store
    (fst (snd (VectorStore.clear_store S self disk))) = None
  /\ VectorStore.similarity_search S
       (fst (snd (VectorStore.clear_store S self disk))) query k = Ok [].
Proof.
  intros Hdel.
  destruct (clear_store_shape S self disk)
    as (v & Hclear & [-> | (index & e & _ & Hidx & Hraise)]).
  - rewrite Hclear. cbn [fst snd]. split; reflexivity.
  - rewrite (Hdel index Hidx) in Hraise. discriminate Hraise.
Qed.

(** X10.  [create_vector_store] never drops an index.  An empty batch
    leaves the store and the disk as they were.  When the call returns
    on a non-empty batch the store holds an index: the one
    [add_documents] gave for the index it held, or the one
    [Chroma.from_documents] made with the store's provider and persist
    directory when it held none. *)
Theorem create_vector_store_keeps_index (self self' : VectorStore.t)
    (disk disk' : Disk.t) (documents : list Document) :
  VectorStore.create_vector_store S self disk documents = Ok (self', disk') ->
  (documents = [] -> self' = self /\ disk' = disk)
  /\ (documents <> [] -> VectorStore.vector_store self' <> None)
  /\ (forall index,
        documents <> [] ->
        VectorStore.vector_store self = Some index ->
        exists index',
          add_documents S index documents disk = Ok (index', disk')
          /\ VectorStore.vector_store self' = Some index')
  /\ (documents <> [] ->
      VectorStore.vector_store self = None ->
      exists index',
        Chroma_from_documents S documents (VectorStore.embeddings self)
          (VectorStore.persist_directory self) disk = Ok (index', disk')
        /\ VectorStore.vector_store self' = Some index').
Proof.
  unfold VectorStore.create_vector_store.
  destruct documents as [| doc documents].
  - intros H. injection H as <- <-. split; [auto |].
    split; [intros Hne; contradiction |].
    split; [intros index Hne; contradiction | intros Hne; contradiction].
  - destruct (VectorStore.vector_store self) as [index |] eqn:Hidx.
    + destruct (add_documents S index (doc :: documents) disk)
        as [[index' disk1] |] eqn:Hadd; cbn [bind fst snd]; intros H;
        [| discriminate H].
      injection H as <- <-.
      cbn [VectorStore.vector_store VectorStore.set_vector_store].
      split; [intros Habs; discriminate Habs |].
      split; [intros _ Habs; discriminate Habs |].
      split.
      * intros index0 _ Heq. injection Heq as <-. exists index'. auto.
      * intros _ Habs. discriminate Habs.
    + destruct (Chroma_from_documents S (doc :: documents)
                  (VectorStore.embeddings self)
                  (VectorStore.persist_directory self) disk)
        as [[index' disk1] |] eqn:Hnew; cbn [bind fst snd]; intros H;
        [| discriminate H].
      injection H as <- <-.
      cbn [VectorStore.vector_store VectorStore.set_vector_store].
      split; [intros Habs; discriminate Habs |].
      split; [intros _ Habs; discriminate Habs |].
      split.
      * intros index0 _ Heq. discriminate Heq.
      * intros _ _. exists index'. auto.
Qed.

(** X23.  [clear_store] raises exactly when the persist directory exists
    and its removal raises, and then with that exception: a failure to
    delete the collection is never what the caller sees. *)
Theorem clear_store_raises_iff (self : VectorStore.t) (disk : Disk.t)
    (e : PyException) :
  fst (VectorStore.clear_store S self disk) = Raise e <->
  Disk.exists_ disk (VectorStore.persist_directory self) = true
  /\ exists leftover,
       rmtree_failure S disk (VectorStore.persist_directory self)
       = Some (e, leftover).
Proof.
  destruct (clear_store_shape S self disk) as (v & Hclear & _).
  rewrite Hclear. cbn [fst].
  destruct (Disk.exists_ disk (VectorStore.persist_directory self)).
  - unfold Disk.rmtree.
    destruct (rmtree_failure S disk (VectorStore.persist_directory self))
      as [[e0 leftover] |]; cbn [fst]; split.
    + intros H. injection H as <-. split; [reflexivity |].
      exists leftover. reflexivity.
    + intros (_ & leftover' & H). injection H as <- _. reflexivity.
    + intros H. discriminate H.
    + intros (_ & leftover' & H). discriminate H.
  - split.
    + intros H. discriminate H.
    + intros (H & _). discriminate H.
Qed.

End StoreMore.

(* ================================================================= *)
(** ** More on the pipeline *)

Section PipelineMore.

Variable S : Services.

(** X11.  Constructing a pipeline raises exactly when the language
    model cannot be started, with the exception of that call; a chain
    that cannot be built is not an error of the constructor.  A
    constructed pipeline carries the model name given, the model started,
    and an empty conversation. *)
Theorem pipeline_construction (vector_store : VectorStore.t)
    (model_name : str) :
  (forall e,
     ChatOllama S model_name = Raise e ->
     RAGPipeline.__init__ S vector_store model_name = Raise e)
  /\ (forall llm,
        ChatOllama S model_name = Ok llm ->
        exists p,
          RAGPipeline.__init__ S vector_store model_name = Ok p
          /\ RAGPipeline.model_name p = model_name
          /\ RAGPipeline.llm p = Some llm
          /\ RAGPipeline.memory p = Some []
          /\ RAGPipeline.get_chat_history p = Ok []).
Proof.
  unfold RAGPipeline.__init__, RAGPipeline._initialize_llm. split.
  - intros e H. rewrite H. reflexivity.
  - intros llm H. rewrite H. cbn [bind try_except].
    destruct (setup_qa_chain_total S vector_store llm
                RAGPipeline._setup_memory) as [c Hc].
    rewrite Hc. cbn [bind]. eexists. split; [reflexivity |].
    repeat split.
Qed.

Lemma history_empty_cases (self : RAGPipeline.t) :
  RAGPipeline.get_chat_history self = Ok [] <->
  RAGPipeline.memory self = None \/ RAGPipeline.memory self = Some [].
Proof.
  unfold RAGPipeline.get_chat_history.
  destruct (RAGPipeline.memory self) as [[| m ms] |]; cbn [try_except map];
    split; intros H; auto.
  - discriminate H.
  - destruct H as [H | H]; discriminate H.
Qed.

Lemma step_uninitialized (self : RAGPipeline.t) (o : Run.op) :
  RAGPipeline.qa_chain self = None ->
  RAGPipeline.get_chat_history self = Ok [] ->
  RAGPipeline.get_chat_history (Run.step S self o) = Ok [].
Proof.
  intros Hnone Hhist. destruct o; cbn [Run.step]; auto.
  - rewrite (ask_question_uninitialized S self question Hnone). exact Hhist.
  - unfold RAGPipeline.clear_memory.
    destruct (RAGPipeline.memory self) eqn:Hmem; cbn [snd]; auto.
Qed.

(** X12.  A pipeline without a chain and with an empty conversation
    stays that way: after any sequence of operations the history is
    still empty and a question still gets the canned "not ready"
    result, so nothing asked before the upload is ever remembered. *)
Theorem uninitialized_pipeline_stays_silent (ops : list Run.op) :
  forall self question,
    RAGPipeline.qa_chain self = None ->
    RAGPipeline.get_chat_history self = Ok [] ->
    RAGPipeline.get_chat_history (Run.run S self ops) = Ok []
    /\ fst (RAGPipeline.ask_question S (Run.run S self ops) question)
       = Ok RAGPipeline.not_ready.
Proof.
  unfold Run.run.
  induction ops as [| o ops IH]; intros self question Hnone Hhist;
    cbn [fold_left].
  - split; [exact Hhist |].
    rewrite (ask_question_uninitialized S self question Hnone). reflexivity.
  - apply IH.
    + rewrite step_keeps_chain. exact Hnone.
    + apply step_uninitialized; assumption.
Qed.

(** X13.  [clear_memory] empties the conversation whatever it held:
    the history read right after it is empty, and clearing twice is the
    same as clearing once. *)
Theorem clear_memory_empties_history (self : RAGPipeline.t) :
  fst (RAGPipeline.clear_memory self) = Ok tt
  /\ RAGPipeline.get_chat_history (snd (RAGPipeline.clear_memory self))
     = Ok []
  /\ snd (RAGPipeline.clear_memory (snd (RAGPipeline.clear_memory self)))
     = snd (RAGPipeline.clear_memory self).
Proof.
  unfold RAGPipeline.clear_memory, RAGPipeline.get_chat_history.
  destruct (RAGPipeline.memory self) eqn:Hmem; cbn [fst snd].
  - cbn [RAGPipeline.memory RAGPipeline.set_memory try_except map].
    repeat split.
  - rewrite Hmem. repeat split.
Qed.

(** X14.  Missing keys in what the chain returns.  Without the key
    ["answer"] the question fails with the message of the [KeyError],
    and the sources already collected are dropped; without the key
    ["source_documents"] the question succeeds with no sources. *)
Theorem ask_question_missing_keys (self : RAGPipeline.t) (question : str)
    (chain : Chain) (res : ChainResult) :
  RAGPipeline.qa_chain self = Some chain ->
  fst (call_chain S chain (RAGPipeline.memory self) question) = Ok res ->
  (result_answer res = None ->
   fst (RAGPipeline.ask_question S self question)
   = Ok (RAGPipeline.mkAnswer (py "Error processing question: 'answer'")
           [] true))
  /\ (forall a,
        result_answer res = Some a ->
        result_source_documents res = None ->
        fst (RAGPipeline.ask_question S self question)
        = Ok (RAGPipeline.mkAnswer a [] false)).
Proof.
  intros Hchain Hcall. unfold RAGPipeline.ask_question.
  rewrite Hchain. cbn [fst]. rewrite Hcall. cbn [bind].
  unfold RAGPipeline.getitem_answer, RAGPipeline.get_source_documents.
  split.
  - intros Hnone. rewrite Hnone. reflexivity.
  - intros a Ha Hsrc. rewrite Ha, Hsrc. reflexivity.
Qed.

(** X15.  The error flag of a result tells whether the chain answered:
    it is unset exactly when the chain call returned a dictionary with
    an answer, and then the answer is the chain's and there is one
    source per retrieved document. *)
Theorem ask_question_success_iff (self : RAGPipeline.t) (question : str)
    (chain : Chain) (r : RAGPipeline.Answer) :
  RAGPipeline.qa_chain self = Some chain ->
  fst (RAGPipeline.ask_question S self question) = Ok r ->
  (RAGPipeline.error r = false <->
   exists res a,
     fst (call_chain S chain (RAGPipeline.memory self) question) = Ok res
     /\ result_answer res = Some a)
  /\ (forall res a,
        fst (call_chain S chain (RAGPipeline.memory self) question) = Ok res ->
        result_answer res = Some a ->
        RAGPipeline.answer r = a
        /\ length (RAGPipeline.source_documents r)
           = length (RAGPipeline.get_source_documents res)).
Proof.
  intros Hchain. unfold RAGPipeline.ask_question. rewrite Hchain.
  cbn [fst].
  destruct (fst (call_chain S chain (RAGPipeline.memory self) question))
    as [res | e]; cbn [bind try_except].
  - unfold RAGPipeline.getitem_answer.
    destruct (result_answer res) as [a |] eqn:Ha; cbn [bind try_except];
      intros H; injection H as <-; cbn [RAGPipeline.error
        RAGPipeline.answer RAGPipeline.source_documents]; split.
    + split; [intros _; exists res, a; auto | reflexivity].
    + intros res' a' Hres Ha'. injection Hres as <-.
      rewrite Ha in Ha'. injection Ha' as <-.
      rewrite length_map. auto.
    + split; [intros H; discriminate H |].
      intros (res' & a' & Hres & Ha'). injection Hres as <-.
      rewrite Ha in Ha'. discriminate Ha'.
    + intros res' a' Hres Ha'. injection Hres as <-.
      rewrite Ha in Ha'. discriminate Ha'.
  - intros H. injection H as <-. cbn [RAGPipeline.error]. split.
    + split; [intros H; discriminate H |].
      intros (res' & a' & Hres & _). discriminate Hres.
    + intros res' a' Hres. discriminate Hres.
Qed.

Lemma step_frame (self : RAGPipeline.t) (o : Run.op) :
  Run.step S self o
  = RAGPipeline.set_memory self (RAGPipeline.memory (Run.step S self o)).
Proof.
  destruct self as [m l mem c]. destruct o; cbn [Run.step]; try reflexivity.
  - unfold RAGPipeline.ask_question. cbn [RAGPipeline.qa_chain].
    destruct c; reflexivity.
  - unfold RAGPipeline.clear_memory. cbn [RAGPipeline.memory].
    destruct mem; reflexivity.
Qed.

(** X16.  The conversation memory is the only attribute the operations
    of a pipeline write: after any sequence of [ask_question],
    [clear_memory], [get_chat_history] and [get_system_info] the model
    name, the model and the chain are those of the start. *)
Theorem pipeline_run_frame (ops : list Run.op) :
  forall self,
    Run.run S self ops
    = RAGPipeline.set_memory self (RAGPipeline.memory (Run.run S self ops)).
Proof.
  unfold Run.run.
  induction ops as [| o ops IH]; intros self; cbn [fold_left].
  - destruct self. reflexivity.
  - rewrite (IH (Run.step S self o)) at 1.
    rewrite (step_frame self o) at 1. reflexivity.
Qed.

(** X17.  [get_system_info] never raises and reads the shared store as
    it is at the time of the call: the chain flag is that of the
    pipeline, a count above zero comes with status ["active"], and over
    a store without an index it reports ["not_initialized"] and 0
    documents even for a Ready pipeline. *)
Theorem get_system_info_reads_store (self : RAGPipeline.t)
    (vector_store : VectorStore.t) :
  exists info,
    RAGPipeline.get_system_info S self vector_store = Ok info
    /\ RAGPipeline.info_model_name info = RAGPipeline.model_name self
    /\ RAGPipeline.qa_chain_initialized info = Run.ready self
    /\ (0 < RAGPipeline.document_count info ->
        RAGPipeline.vector_store_status info = py "active")
    /\ (VectorStore.vector_store vector_store = None ->
        RAGPipeline.vector_store_status info = py "not_initialized"
        /\ RAGPipeline.document_count info = 0).
Proof.
  unfold RAGPipeline.get_system_info.
  destruct (get_store_info_coherent S vector_store)
    as (vinfo & Hinfo & Hcases & Hactive).
  rewrite Hinfo. cbn [bind]. eexists. split; [reflexivity |].
  cbn [RAGPipeline.info_model_name RAGPipeline.qa_chain_initialized
       RAGPipeline.document_count RAGPipeline.vector_store_status].
  split; [reflexivity |]. split; [reflexivity |]. split; [exact Hactive |].
  intros Hnone.
  destruct Hcases as [[_ ->] | [(index & n & Hidx & _) | (index & e & Hidx & _)]].
  - split; reflexivity.
  - rewrite Hnone in Hidx. discriminate Hidx.
  - rewrite Hnone in Hidx. discriminate Hidx.
Qed.

End PipelineMore.

(* ================================================================= *)
(** ** The application: bootstrap, start and reset *)


Section Application.

Variable S : Services.

Lemma startup_nothing_to_load (session : App.Session) (disk : Disk.t) :
  App.rag_pipeline session = None ->
  VectorStore.vector_store (App.vector_store session) = None ->
  Disk.exists_ disk (VectorStore.persist_directory (App.vector_store session))
  = false ->
  App.startup S session disk = Ok session.
Proof.
  intros Hpipe Hidx Habsent. unfold App.startup. rewrite Hpipe.
  unfold VectorStore.load_existing_store. rewrite Habsent.
  cbn [try_except bind snd]. unfold App.initialize_rag_pipeline.
  cbn [App.vector_store]. unfold VectorStore.get_store_info.
  rewrite Hidx. cbn [bind VectorStore.count Nat.ltb Nat.leb snd].
  destruct session as [vs pipeline]. cbn [App.rag_pipeline] in Hpipe.
  subst pipeline. reflexivity.
Qed.

(** X18.  The bootstrap never raises.  When it returns [False] the
    session is untouched; when it returns [True] the store reported a
    count above zero, a pipeline was constructed over that store and is
    now the session's, and the store itself is unchanged. *)
Theorem initialize_rag_pipeline_outcome (session : App.Session) :
  exists started session',
    App.initialize_rag_pipeline S session = Ok (started, session')
    /\ App.vector_store session' = App.vector_store session
    /\ (started = false -> session' = session)
    /\ (started = true ->
        exists info p,
          VectorStore.get_store_info S (App.vector_store session) = Ok info
          /\ 0 < VectorStore.count info
          /\ RAGPipeline.__init__ S (App.vector_store session) (py "mistral")
             = Ok p
          /\ App.rag_pipeline session' = Some p).
Proof.
  destruct (App.initialize_rag_pipeline S session) as [[started session'] | e]
    eqn:Hrun.
  - exists started, session'. split; [reflexivity |].
    destruct started.
    + destruct (initialize_rag_pipeline_gate S session Hrun)
        as (info & p & Hinfo & Hpos & Hinit & Hpipe).
      unfold App.initialize_rag_pipeline in Hrun.
      rewrite Hinfo in Hrun. cbn [bind] in Hrun.
      apply Nat.ltb_lt in Hpos. rewrite Hpos, Hinit in Hrun.
      cbn [bind try_except] in Hrun. injection Hrun as <-.
      split; [reflexivity |]. split; [intros H; discriminate H |].
      intros _. exists info, p. apply Nat.ltb_lt in Hpos. auto.
    + unfold App.initialize_rag_pipeline in Hrun.
      destruct (VectorStore.get_store_info S (App.vector_store session))
        as [info |]; cbn [bind] in Hrun; [| discriminate Hrun].
      destruct (0 <? VectorStore.count info).
      * destruct (RAGPipeline.__init__ S (App.vector_store session)
                    (py "mistral")); cbn [bind try_except] in Hrun;
          [discriminate Hrun |].
        injection Hrun as <-. split; [reflexivity |].
        split; [reflexivity | intros H; discriminate H].
      * injection Hrun as <-. split; [reflexivity |].
        split; [reflexivity | intros H; discriminate H].
  - exfalso. unfold App.initialize_rag_pipeline in Hrun.
    destruct (get_store_info_coherent S (App.vector_store session))
      as (info & Hinfo & _).
    rewrite Hinfo in Hrun. cbn [bind] in Hrun.
    destruct (0 <? VectorStore.count info); [| discriminate Hrun].
    destruct (RAGPipeline.__init__ S (App.vector_store session)
                (py "mistral")); discriminate Hrun.
Qed.

(** X19.  Starting the application.  A session that already has a
    pipeline is left alone.  On a first start, with no index in the
    store and no persist directory on disk, nothing is loaded and no
    pipeline is made: the session stays as it is and the chat stays
    closed. *)
Theorem startup_first_run (session : App.Session) (disk : Disk.t) :
  (App.rag_pipeline session <> None -> App.startup S session disk = Ok session)
  /\ (App.rag_pipeline session = None ->
      VectorStore.vector_store (App.vector_store session) = None ->
      Disk.exists_ disk
        (VectorStore.persist_directory (App.vector_store session)) = false ->
      App.startup S session disk = Ok session).
Proof.
  split.
  - intros Hsome. unfold App.startup.
    destruct (App.rag_pipeline session); [reflexivity | contradiction].
  - intros Hpipe Hidx Habsent.
    apply startup_nothing_to_load; assumption.
Qed.


End Application.

(* ================================================================= *)
(** ** The further properties on concrete runs *)

Lemma process_file_isolates_failures_witness :
  DocumentProcessor.process_file (DocumentProcessor.__init__ 1000 200)
    Demo.files (py "uploads/missing.txt") = Ok [].
Proof.
  destruct (@process_file_isolates_failures
              (DocumentProcessor.__init__ 1000 200) Demo.files
              (py "uploads/missing.txt")) as (_ & Hread & _).
  apply (Hread (Exception (py "No such file or directory"))).
  - vm_compute. intros H. discriminate H.
  - reflexivity.
Defined.

Lemma process_file_keeps_chunks_witness :
  exists docs,
    DocumentProcessor.process_file (DocumentProcessor.__init__ 12 0)
      Demo.files (py "uploads/notes.txt") = Ok docs
    /\ map page_content docs = [py "alpha beta "; py "gamma delta"]
    /\ length docs = 2.
Proof.
  apply (proj1 (@process_file_keeps_chunks
                  (DocumentProcessor.__init__ 12 0) Demo.files
                  (py "uploads/notes.txt")
                  [py "alpha beta "; py "gamma delta"])
           (py "alpha beta gamma delta")).
  - left. reflexivity.
  - reflexivity.
  - vm_compute. reflexivity.
Defined.

Lemma process_directory_sources_witness :
  In (py "uploads/notes.txt", true)
     (DocumentProcessor.glob Demo.files (py "uploads"))
  /\ DocumentProcessor.supported (py "uploads/notes.txt") = true
  /\ 1 < 2.
Proof.
  apply (@process_directory_sources (DocumentProcessor.__init__ 12 0)
           Demo.files (py "uploads")
           [mkDocument (py "alpha beta ")
              (mkMetadata (py "uploads/notes.txt") (py "txt") 0 2);
            mkDocument (py "gamma delta")
              (mkMetadata (py "uploads/notes.txt") (py "txt") 1 2)]
           (mkDocument (py "gamma delta")
              (mkMetadata (py "uploads/notes.txt") (py "txt") 1 2))).
  - vm_compute. reflexivity.
  - right. left. reflexivity.
Defined.

Lemma get_store_info_coherent_witness :
  exists info,
    VectorStore.get_store_info Demo.reliable (Demo.store_of [Demo.long_doc])
    = Ok info
    /\ VectorStore.status info = py "active".
Proof.
  destruct (@get_store_info_coherent Demo.reliable
              (Demo.store_of [Demo.long_doc]))
    as (info & Hinfo & _ & Hactive).
  exists info. split; [exact Hinfo |].
  apply Hactive. vm_compute in Hinfo. injection Hinfo as <-.
  cbn [VectorStore.count]. lia.
Defined.

Lemma load_existing_store_outcome_witness :
  exists self',
    VectorStore.load_existing_store Demo.reliable Demo.fresh_store []
    = Ok (false, self').
Proof.
  destruct (@load_existing_store_outcome Demo.reliable Demo.fresh_store [])
    as (loaded & self' & Hload & _ & _ & Habsent).
  exists self'. rewrite <- (Habsent eq_refl). exact Hload.
Defined.

Lemma clear_then_load_witness :
  VectorStore.load_existing_store Demo.index_down
    (Demo.store_of [Demo.long_doc]) []
  = Ok (false, Demo.store_of [Demo.long_doc]).
Proof.
  apply (@clear_then_load Demo.index_down (Demo.store_of [Demo.long_doc])
           (Demo.store_of [Demo.long_doc]) [Demo.chroma_db] []).
  reflexivity.
Defined.

(** The persist path is a regular file: the collection is deleted, the
    removal raises, and a search on the store left behind finds
    nothing. *)
Lemma clear_then_search_witness :
  fst (VectorStore.clear_store Demo.stuck_disk
         (Demo.store_of [Demo.long_doc]) [Demo.chroma_db])
  = Raise Demo.not_a_directory
  /\ VectorStore.similarity_search Demo.stuck_disk
       (fst (snd (VectorStore.clear_store Demo.stuck_disk
                    (Demo.store_of [Demo.long_doc]) [Demo.chroma_db])))
       (py "Why?") 4
     = Ok [].
Proof.
  split; [reflexivity |].
  apply (@clear_then_search Demo.stuck_disk (Demo.store_of [Demo.long_doc])
           [Demo.chroma_db] (py "Why?") 4).
  intros index _. reflexivity.
Defined.

Lemma create_vector_store_keeps_index_witness :
  exists index',
    add_documents Demo.reliable
      (mkChroma [Demo.long_doc] (Ollama (py "mistral")) Demo.chroma_db)
      [Demo.doc (py "more") 0 1] [Demo.chroma_db]
    = Ok (index', [Demo.chroma_db])
    /\ VectorStore.vector_store
         (Demo.store_of [Demo.long_doc; Demo.doc (py "more") 0 1])
       = Some index'.
Proof.
  destruct (@create_vector_store_keeps_index Demo.reliable
              (Demo.store_of [Demo.long_doc])
              (Demo.store_of [Demo.long_doc; Demo.doc (py "more") 0 1])
              [Demo.chroma_db] [Demo.chroma_db]
              [Demo.doc (py "more") 0 1] eq_refl)
    as (_ & _ & Hadd & _).
  apply Hadd.
  - intros H. discriminate H.
  - reflexivity.
Defined.

Lemma clear_store_raises_iff_witness :
  fst (VectorStore.clear_store Demo.stuck_disk
         (Demo.store_of [Demo.long_doc]) [Demo.chroma_db])
  = Raise Demo.not_a_directory.
Proof.
  apply (proj2 (@clear_store_raises_iff Demo.stuck_disk
                  (Demo.store_of [Demo.long_doc]) [Demo.chroma_db]
                  Demo.not_a_directory)).
  split; [reflexivity |]. exists [Demo.chroma_db]. reflexivity.
Defined.

Lemma pipeline_construction_witness :
  RAGPipeline.__init__ Demo.no_model (Demo.store_of [Demo.long_doc])
    (py "mistral") = Raise Demo.refused.
Proof.
  apply (proj1 (@pipeline_construction Demo.no_model
                  (Demo.store_of [Demo.long_doc]) (py "mistral"))).
  reflexivity.
Defined.

Lemma uninitialized_pipeline_stays_silent_witness :
  RAGPipeline.get_chat_history
    (Run.run Demo.reliable Demo.fresh_pipeline
       [Run.Ask (py "Why?"); Run.ClearMemory; Run.Ask (py "How?")])
  = Ok []
  /\ fst (RAGPipeline.ask_question Demo.reliable
            (Run.run Demo.reliable Demo.fresh_pipeline
               [Run.Ask (py "Why?"); Run.ClearMemory; Run.Ask (py "How?")])
            (py "When?"))
     = Ok RAGPipeline.not_ready.
Proof.
  apply (@uninitialized_pipeline_stays_silent Demo.reliable
           [Run.Ask (py "Why?"); Run.ClearMemory; Run.Ask (py "How?")]
           Demo.fresh_pipeline (py "When?")); reflexivity.
Defined.

Lemma ask_question_missing_keys_witness :
  fst (RAGPipeline.ask_question Demo.no_answer_key
         (Demo.pipeline_of [Demo.long_doc]) (py "Why?"))
  = Ok (RAGPipeline.mkAnswer (py "Error processing question: 'answer'")
          [] true).
Proof.
  apply (proj1 (@ask_question_missing_keys Demo.no_answer_key
                  (Demo.pipeline_of [Demo.long_doc]) (py "Why?") _
                  (mkChainResult None (Some [Demo.long_doc]))
                  eq_refl eq_refl)).
  reflexivity.
Defined.

Lemma ask_question_success_iff_witness :
  exists res a,
    fst (call_chain Demo.reliable
           (mkChain (mkLLM (py "mistral"))
              (mkChroma [Demo.long_doc] (Ollama (py "mistral"))
                 Demo.chroma_db) 4)
           (Some []) (py "Why?")) = Ok res
    /\ result_answer res = Some a.
Proof.
  apply (proj1 (@ask_question_success_iff Demo.reliable
                  (Demo.pipeline_of [Demo.long_doc]) (py "Why?") _
                  (RAGPipeline.mkAnswer (py "You asked: Why?")
                     [RAGPipeline.mkSource (repeat "a"%char 200 ++ py "...")
                        (metadata Demo.long_doc)]
                     false)
                  eq_refl eq_refl)).
  reflexivity.
Defined.

Lemma get_system_info_reads_store_witness :
  exists info,
    RAGPipeline.get_system_info Demo.reliable
      (Demo.pipeline_of [Demo.long_doc]) Demo.fresh_store = Ok info
    /\ RAGPipeline.qa_chain_initialized info = true
    /\ RAGPipeline.vector_store_status info = py "not_initialized"
    /\ RAGPipeline.document_count info = 0.
Proof.
  destruct (@get_system_info_reads_store Demo.reliable
              (Demo.pipeline_of [Demo.long_doc]) Demo.fresh_store)
    as (info & Hinfo & _ & Hready & _ & Hnone).
  exists info. split; [exact Hinfo |]. split; [exact Hready |].
  apply Hnone. reflexivity.
Defined.

Lemma initialize_rag_pipeline_outcome_witness :
  exists started session',
    App.initialize_rag_pipeline Demo.reliable Demo.fresh_session
    = Ok (started, session')
    /\ session' = Demo.fresh_session.
Proof.
  destruct (@initialize_rag_pipeline_outcome Demo.reliable Demo.fresh_session)
    as (started & session' & Hrun & _ & Hfalse & _).
  exists started, session'. split; [exact Hrun |].
  apply Hfalse. vm_compute in Hrun. injection Hrun as <- _. reflexivity.
Defined.

Lemma startup_first_run_witness :
  App.startup Demo.reliable Demo.fresh_session [] = Ok Demo.fresh_session.
Proof.
  apply (proj2 (@startup_first_run Demo.reliable Demo.fresh_session []));
    reflexivity.
Defined.


(* ================================================================= *)
(** ** The application: the chat transcript *)

Section Chat.

Variable S : Services.

(** [ask_question] returns a result for every pipeline and question, and
    a result with the error flag set has no sources. *)
Lemma ask_question_returns (self : RAGPipeline.t) (question : str) :
  exists r,
    fst (RAGPipeline.ask_question S self question) = Ok r
    /\ (RAGPipeline.error r = true -> RAGPipeline.source_documents r = []).
Proof.
  unfold RAGPipeline.ask_question.
  destruct (RAGPipeline.qa_chain self) as [chain |]; cbn [fst].
  - destruct (fst (call_chain S chain (RAGPipeline.memory self) question))
      as [res | e]; cbn [bind try_except].
    + unfold RAGPipeline.getitem_answer.
      destruct (result_answer res); cbn [bind try_except]; eexists;
        (split; [reflexivity |]); cbn [RAGPipeline.error
          RAGPipeline.source_documents]; intros H;
        [discriminate H | reflexivity].
    + eexists. split; [reflexivity | intros _; reflexivity].
  - exists RAGPipeline.not_ready. split; [reflexivity | intros _; reflexivity].
Qed.

(** X21.  A question typed in the chat never raises and appends exactly
    two messages to the transcript: the user's prompt, then the
    assistant's reply holding the answer of [ask_question] and its
    sources.  A reply to a failed question holds the error text and no
    sources.  The store and the uploaded files are untouched and the
    session keeps a pipeline. *)
Theorem chat_turn_appends (page : App.Page) (prompt : str)
    (pipeline : RAGPipeline.t) :
  App.rag_pipeline (App.session page) = Some pipeline ->
  exists response,
    fst (RAGPipeline.ask_question S pipeline prompt) = Ok response
    /\ App.chat_turn S page prompt
       = (Ok tt,
          {| App.session :=
               {| App.vector_store := App.vector_store (App.session page);
                  App.rag_pipeline :=
                    Some (snd (RAGPipeline.ask_question S pipeline prompt)) |};
             App.messages :=
               App.messages page
               ++ [App.mkChatMessage (py "user") prompt [];
                   App.mkChatMessage (py "assistant")
                     (RAGPipeline.answer response)
                     (RAGPipeline.source_documents response)];
             App.uploaded_files := App.uploaded_files page |})
    /\ (RAGPipeline.error response = true ->
        RAGPipeline.source_documents response = []).
Proof.
  intros Hpipe.
  destruct (ask_question_returns pipeline prompt) as (response & Hask & Herr).
  exists response. split; [exact Hask |]. split; [| exact Herr].
  unfold App.chat_turn. rewrite Hpipe, Hask.
  rewrite <- app_assoc. cbn [app].
  destruct (RAGPipeline.error response) eqn:Hflag.
  - rewrite (Herr eq_refl). reflexivity.
  - reflexivity.
Qed.

(** X22.  Over any number of questions the chat never raises and the
    transcript grows by the prompts in order, each followed by one
    reply: two messages per question, alternating user and assistant.
    The store is untouched and the session keeps a pipeline. *)
Theorem chat_transcript (prompts : list str) :
  forall page,
    App.rag_pipeline (App.session page) <> None ->
    exists page' replies,
      App.chat S page prompts = (Ok tt, page')
      /\ App.rag_pipeline (App.session page') <> None
      /\ App.vector_store (App.session page')
         = App.vector_store (App.session page)
      /\ length replies = length prompts
      /\ App.messages page'
         = App.messages page
           ++ flat_map
                (fun turn =>
                   [App.mkChatMessage (py "user") (fst turn) [];
                    App.mkChatMessage (py "assistant")
                      (RAGPipeline.answer (snd turn))
                      (RAGPipeline.source_documents (snd turn))])
                (combine prompts replies)
      /\ length (App.messages page')
         = length (App.messages page) + 2 * length prompts.
Proof.
  induction prompts as [| prompt prompts IH]; intros page Hpipe.
  - exists page, []. cbn [App.chat combine flat_map length].
    rewrite app_nil_r. repeat split; auto; lia.
  - destruct (App.rag_pipeline (App.session page)) as [pipeline |] eqn:Hsome;
      [| contradiction].
    destruct (chat_turn_appends page prompt Hsome)
      as (response & _ & Hturn & _).
    cbn [App.chat]. rewrite Hturn.
    match goal with
    | |- context [App.chat S ?p prompts] =>
        destruct (IH p) as (page' & replies & Hchat & Hkeep & Hstore
                            & Hlen & Hmsgs & Hcount)
    end.
    { cbn [App.session App.rag_pipeline]. discriminate. }
    exists page', (response :: replies).
    split; [exact Hchat |]. split; [exact Hkeep |].
    split; [exact Hstore |].
    split; [cbn [length]; rewrite Hlen; reflexivity |].
    split.
    + rewrite Hmsgs. cbn [App.messages combine flat_map fst snd].
      rewrite <- app_assoc. reflexivity.
    + rewrite Hcount. cbn [App.messages]. rewrite length_app.
      cbn [length]. lia.
Qed.

End Chat.

Lemma chat_turn_appends_witness :
  exists response,
    fst (RAGPipeline.ask_question Demo.model_down
           (Demo.pipeline_of [Demo.long_doc]) (py "Why?")) = Ok response
    /\ RAGPipeline.source_documents response = [].
Proof.
  destruct (@chat_turn_appends Demo.model_down Demo.busy_page (py "Why?")
              (Demo.pipeline_of [Demo.long_doc]) eq_refl)
    as (response & Hask & _ & Herr).
  exists response. split; [exact Hask |].
  apply Herr. vm_compute in Hask. injection Hask as <-. reflexivity.
Defined.

Lemma chat_transcript_witness :
  exists page',
    App.chat Demo.reliable Demo.busy_page [py "How?"; py "When?"]
    = (Ok tt, page')
    /\ length (App.messages page') = 6.
Proof.
  destruct (@chat_transcript Demo.reliable [py "How?"; py "When?"]
              Demo.busy_page)
    as (page' & replies & Hchat & _ & _ & _ & _ & Hcount).
  - intros H. discriminate H.
  - exists page'. split; [exact Hchat | exact Hcount].
Defined.
